(** * pterodactyl-ts: the file subsystem and the request layer

    A shallow embedding of [Request.ts] (APIRequest, makeRequest), [File.ts]
    and [FileManager.ts], followed by the properties the specification
    states about them.

    Conventions of the embedding:
    - JavaScript strings are [string], the bytes of their UTF-8 encoding;
      the string methods the sources call ([endsWith], [startsWith],
      [slice], [charAt], [substr], [split], [join]) are defined below with
      their JavaScript meaning on ASCII text, and [length] counts UTF-16
      code units on any text;
    - a value of type [any] (an error envelope, a request body) is a
      [JSValue]; numbers are restricted to integers;
    - an [async] function is a computation of type [Async A]: it threads the
      log of the requests handed to [Axios.request] and asks an [Upstream]
      for the outcome of each one; it completes normally or throws;
    - a method that assigns to a field of its object hands the object back
      with its completion, also when it throws ([Mutating], [Method]). *)

From Stdlib Require Import String Ascii List ZArith Bool Lia DecimalString.
Import ListNotations.

Local Open Scope string_scope.
Local Open Scope Z_scope.

(** ** JavaScript strings *)

Module JSString.

(** [s.endsWith(suffix)]: some tail of [s] is [suffix]. *)
Fixpoint endsWith (s suffix : string) : bool :=
  (s =? suffix)%string ||
  match s with
  | EmptyString => false
  | String _ t => endsWith t suffix
  end.

(** [s.startsWith(p)]. *)
Definition startsWith (s p : string) : bool := String.prefix p s.

(** An index argument of [slice], resolved against the length [n]:
    a negative index counts from the end, and the result is clamped
    to [0 .. n]. *)
Definition resolve_index (n i : Z) : Z :=
  if i <? 0 then Z.max (n + i) 0 else Z.min i n.

(** [s.slice(b, e)]. *)
Definition slice (s : string) (b e : Z) : string :=
  let n := Z.of_nat (String.length s) in
  let from := resolve_index n b in
  let to := resolve_index n e in
  String.substring (Z.to_nat from) (Z.to_nat (Z.max (to - from) 0)) s.

(** [s.slice(b)]: the end defaults to the length. *)
Definition slice_from (s : string) (b : Z) : string :=
  slice s b (Z.of_nat (String.length s)).

(** [s.charAt(i)]: the empty string when [i] is out of range. *)
Definition charAt (s : string) (i : nat) : string :=
  match String.get i s with
  | Some c => String c EmptyString
  | None => EmptyString
  end.

(** [s.substr(start, len)] for a non-negative [start]. *)
Definition substr (s : string) (start len : nat) : string :=
  String.substring start len s.

(** [s.split(sep)] for a one-character separator; never empty. *)
Fixpoint split (sep : ascii) (s : string) : list string :=
  match s with
  | EmptyString => [EmptyString]
  | String c t =>
      if Ascii.eqb c sep then EmptyString :: split sep t
      else match split sep t with
           | h :: r => String c h :: r
           | [] => [String c EmptyString]
           end
  end.

(** [l.join(sep)]. *)
Definition join (sep : string) (l : list string) : string :=
  String.concat sep l.

(** [`${z}`] for an integer. *)
Definition of_Z (z : Z) : string := NilZero.string_of_int (Z.to_int z).

(** The UTF-16 code units a byte of the encoding stands for: one for a
    byte that opens a character of the basic plane, two for a byte that
    opens a character beyond it (a surrogate pair), none for a
    continuation byte. *)
Definition code_units (c : ascii) : nat :=
  let b := nat_of_ascii c in
  if (b <? 128)%nat then 1
  else if (b <? 192)%nat then 0
  else if (b <? 240)%nat then 1
  else 2.

(** [s.length]: the number of UTF-16 code units of [s]; for a string of
    ASCII characters it is the number of bytes. *)
Fixpoint length (s : string) : nat :=
  match s with
  | EmptyString => 0
  | String c t => (code_units c + length t)%nat
  end.

End JSString.

Import JSString.

(** ** Untyped values *)

#[local] Set Warnings "-register-all".

Inductive JSValue : Type :=
| JUndefined
| JNull
| JBool (b : bool)
| JNum (z : Z)
| JStr (s : string)
| JArr (elements : list JSValue)
| JObj (fields : list (string * JSValue)).

(** The own property [k] of an object literal; the keys of a literal are
    taken to be distinct. *)
Fixpoint lookup_field (k : string) (fields : list (string * JSValue)) : JSValue :=
  match fields with
  | [] => JUndefined
  | (k', v) :: rest => if (k =? k')%string then v else lookup_field k rest
  end.

(** Truthiness, as tested by [if], [&&] and [?:]. *)
Definition truthy (v : JSValue) : bool :=
  match v with
  | JUndefined | JNull => false
  | JBool b => b
  | JNum z => negb (z =? 0)
  | JStr s => negb (s =? EmptyString)%string
  | JArr _ | JObj _ => true
  end.

(** [v.k] for a data property [k]: [None] is the TypeError raised on
    [undefined] and [null]; primitives and arrays have no such property. *)
Definition prop (v : JSValue) (k : string) : option JSValue :=
  match v with
  | JUndefined | JNull => None
  | JObj fields => Some (lookup_field k fields)
  | _ => Some JUndefined
  end.

(** The string a template literal or an [Error] message makes of a value. *)
Fixpoint toString (v : JSValue) : string :=
  match v with
  | JUndefined => "undefined"
  | JNull => "null"
  | JBool true => "true"
  | JBool false => "false"
  | JNum z => of_Z z
  | JStr s => s
  | JArr l =>
      join ","
        (map (fun x => match x with
                       | JUndefined | JNull => EmptyString
                       | _ => toString x
                       end) l)
  | JObj _ => "[object Object]"
  end.

(** The characters of a string, as [for ... of] yields them. *)
Fixpoint chars (s : string) : list JSValue :=
  match s with
  | EmptyString => []
  | String c t => JStr (String c EmptyString) :: chars t
  end.

(** The elements [for (const e of v)] visits; [None] when [v] is not
    iterable. *)
Definition iterate (v : JSValue) : option (list JSValue) :=
  match v with
  | JArr l => Some l
  | JStr s => Some (chars s)
  | _ => None
  end.

(** ** Listing payloads (the types [FileData] and [FileList]) *)

Record FileAttributes : Type := {
  attr_name : string;
  attr_mode : string;
  attr_size : Z;
  attr_is_file : bool;
  attr_is_symlink : bool;
  attr_is_editable : bool;
  attr_mimetype : string;
  attr_created_at : string;
  attr_modified_at : option string    (* [null] when absent *)
}.

Record FileData : Type := { attributes : FileAttributes }.

(** The body of a response.  The sources type a listing as [FileList] and an
    entry as [FileData]; every other body (text, an error envelope, nothing)
    is an untyped value. *)
Inductive Payload : Type :=
| PList (data : list FileData)      (* { object: "list", data: [...] } *)
| PFile (file : FileData)           (* { object: "file_object", attributes } *)
| PJson (v : JSValue).

(** [response.data.data] of a listing; [None] when it is missing, in which
    case the [for ... of] over it raises a TypeError. *)
Definition listing (d : Payload) : option (list FileData) :=
  match d with
  | PList l => Some l
  | _ => None
  end.

(** [response.data && response.data.errors]. *)
Definition data_errors (d : Payload) : JSValue :=
  match d with
  | PJson v =>
      if truthy v then
        match prop v "errors" with Some e => e | None => JUndefined end
      else v
  | _ => JUndefined
  end.

(** ** Axios *)

Record AxiosRequestConfig : Type := {
  method : string;
  maxRedirects : Z;
  url : string;
  headers : list (string * string);
  data : option JSValue               (* [None]: no body *)
}.

Record AxiosResponse : Type := {
  status : Z;
  statusText : string;
  response_data : Payload
}.

Record AxiosError : Type := {
  error_response : option AxiosResponse;
  error_code : option string
}.

(** What [Axios.request] does with one request: it resolves with a response
    or rejects with an error. *)
Inductive AxiosOutcome : Type :=
| Resolved (response : AxiosResponse)
| Rejected (error : AxiosError).

(** The default [validateStatus] of Axios; no request of these sources sets
    another. *)
Definition validateStatus (status : Z) : bool :=
  (200 <=? status) && (status <? 300).

(** What Axios makes of a completed HTTP response: the promise resolves with
    the response when [validateStatus] accepts its status, and rejects with
    an error that carries the response (and the code [code]) when it does
    not. *)
Definition settle (code : option string) (response : AxiosResponse) : AxiosOutcome :=
  if validateStatus (status response) then Resolved response
  else Rejected {| error_response := Some response; error_code := code |}.

(** ** Exceptions and asynchronous computations *)

Inductive Exn : Type :=
| PterodactylAPIError (message : string)
| Error (message : string)
| TypeError (message : string)
| AxiosFault (error : AxiosError).     (* [throw error], rethrown as caught *)

Inductive Completion (A : Type) : Type :=
| Normal (a : A)
| Throws (e : Exn).

Arguments Normal {A} a.
Arguments Throws {A} e.

(** The panel: the outcome of a request, given the requests issued before
    it. *)
Definition Upstream : Type :=
  list AxiosRequestConfig -> AxiosRequestConfig -> AxiosOutcome.

Definition Async (A : Type) : Type :=
  Upstream -> list AxiosRequestConfig -> Completion A * list AxiosRequestConfig.

Definition ret {A} (a : A) : Async A := fun _ log => (Normal a, log).

Definition throw {A} (e : Exn) : Async A := fun _ log => (Throws e, log).

Definition bind {A B} (m : Async A) (k : A -> Async B) : Async B :=
  fun up log =>
    match m up log with
    | (Normal a, log') => k a up log'
    | (Throws e, log') => (Throws e, log')
    end.

(** [await Axios.request(options)]. *)
Definition Axios_request (options : AxiosRequestConfig) : Async AxiosOutcome :=
  fun up log => (Normal (up log options), (log ++ [options])%list).

(** A call of an [async] function whose promise is dropped: its requests are
    issued, its result and its rejection are not observed. *)
Definition unawaited {A} (m : Async A) : Async unit :=
  fun up log => (Normal tt, snd (m up log)).

Declare Scope async_scope.
Delimit Scope async_scope with async.
Notation "x <- m ;; k" := (bind m (fun x => k))
  (at level 100, m at next level, right associativity) : async_scope.
Notation "m ;;; k" := (bind m (fun _ => k))
  (at level 100, right associativity) : async_scope.
Local Open Scope async_scope.

(** The completion and the requests of a computation started on an empty
    log. *)
Definition outcome {A} (m : Async A) (up : Upstream) : Completion A :=
  fst (m up []).

Definition requests {A} (m : Async A) (up : Upstream) : list AxiosRequestConfig :=
  snd (m up []).

(** ** Request.ts *)

Definition includes (l : list Z) (x : Z) : bool := existsb (Z.eqb x) l.

Definition makeRequest (options : AxiosRequestConfig)
  : Async (option AxiosResponse * JSValue) :=
  o <- Axios_request options ;;
  match o with
  | Resolved response => ret (Some response, JUndefined)
  | Rejected error =>
      match error_response error with
      | Some response =>
          if status response =? 403 then
            throw (Error "Invalid API key provided, request failed")
          else if truthy (data_errors (response_data response)) then
            ret (None, data_errors (response_data response))
          else throw (AxiosFault error)
      | None =>
          match error_code error with
          | Some "ECONNREFUSED" =>
              throw (Error "Unable to connect to host, connection refused")
          | Some "ENOTFOUND" =>
              throw (Error "Unable to connect to host, host not found")
          | _ => throw (AxiosFault error)
          end
      end
  end.

(** [a && b] on values. *)
Definition js_and (a b : JSValue) : JSValue := if truthy a then b else a.

(** The body of the loop over the error list: [Some msg] when the element
    makes the loop throw [msg], [None] when the loop goes on. *)
Definition error_message (code status source detail : JSValue) : option string :=
  if truthy (js_and (js_and code status) detail) then
    Some (toString code ++ " (" ++ toString status ++ "): " ++ toString detail)
  else if truthy (js_and (js_and code source) detail) then
    Some (toString detail)
  else None.

(** [for (const e of error) { ... }] followed by the end of the function:
    [undefined] is returned when no element threw. *)
Fixpoint throw_first_error (es : list JSValue) : Completion (option AxiosResponse) :=
  match es with
  | [] => Normal None
  | e :: rest =>
      match prop e "code", prop e "status", prop e "source", prop e "detail" with
      | Some code, Some status, Some source, Some detail =>
          match error_message code status source detail with
          | Some msg => Throws (PterodactylAPIError msg)
          | None => throw_first_error rest
          end
      | _, _, _, _ => Throws (TypeError "Cannot read properties of undefined")
      end
  end.

Definition APIRequest (options : AxiosRequestConfig) (supressErrors : list Z)
  : Async (option AxiosResponse) :=
  p <- makeRequest options ;;
  match p with
  | (Some response, _) =>
      if (status response =? 200) || includes supressErrors (status response) then
        ret (Some response)
      else
        throw (PterodactylAPIError
                 ("An unexpected error occurred (" ++ of_Z (status response)
                  ++ "): " ++ statusText response))
  | (None, error) =>
      match iterate error with
      | Some es => fun _ log => (throw_first_error es, log)
      | None => throw (TypeError "error is not iterable")
      end
  end.

(** ** The collaborators: Client and Server

    [Client.ts] is consumed through four fields only. *)

Record Client : Type := {
  host : string;
  token : string;
  verified : bool;
  CLIENT_UNVERIFIED_ERROR : string
}.

Record Server : Type := {
  identifier : string;
  client : Client
}.

(** An optional parameter: [None] is an omitted argument. *)
Definition default {A} (d : A) (o : option A) : A :=
  match o with Some a => a | None => d end.

Definition json_headers (c : Client) : list (string * string) :=
  [("Accept", "application/json");
   ("Content-Type", "application/json");
   ("Authorization", "Bearer " ++ token c)].

Definition text_headers (c : Client) : list (string * string) :=
  [("Accept", "application/json");
   ("Content-Type", "text/plain");
   ("Authorization", "Bearer " ++ token c)].

(** [client.host + "/api/client/servers/" + server.identifier + rest]. *)
Definition server_url (s : Server) (rest : string) : string :=
  host (client s) ++ "/api/client/servers/" ++ identifier s ++ rest.

(** [if (!client.verified) throw new PterodactylAPIError(...)]. *)
Definition require_verified (c : Client) : Async unit :=
  if negb (verified c) then throw (PterodactylAPIError (CLIENT_UNVERIFIED_ERROR c))
  else ret tt.

(** [response.data.data] at a call site: reading [data] of [undefined], or
    iterating a body that is no listing, raises a TypeError. *)
Definition listing_of (response : option AxiosResponse) : Async (list FileData) :=
  match response with
  | None => throw (TypeError "Cannot read properties of undefined")
  | Some r =>
      match listing (response_data r) with
      | Some l => ret l
      | None => throw (TypeError "response.data.data is not iterable")
      end
  end.

(** [pathList = path.split("/"); name = pathList.pop(); root = pathList.join("/")]. *)
Definition split_path (path : string) : string * string :=
  let pathList := split "/"%char path in
  (join "/" (removelast pathList), last pathList EmptyString).

(** ** File.ts *)

Record FileAccess : Type := {
  read : bool;
  write : bool;
  execute : bool
}.

Inductive Date : Type := DateOf (timestamp : string).

(** [new Date(v)] for an untyped [v]. *)
Inductive DateValue : Type := DateFrom (v : JSValue).

(** [v === null ? null : new Date(v)]. *)
Definition date_unless_null (v : JSValue) : option DateValue :=
  match v with JNull => None | _ => Some (DateFrom v) end.

(** The fields of a [File].  [fetchedAt], a reading of the clock at
    construction, is not part of the model. *)
Record File : Type := {
  name : string;
  ownerFileAccess : FileAccess;
  userFileAccess : FileAccess;
  isDirectory : bool;
  size : Z;
  symlink : bool;
  editable : bool;
  mimeType : string;
  createdAt : Date;
  modifiedAt : option Date;
  location : string;
  root : string;
  server : Server;
  mode : string
}.

(** The first entry of a listing whose name is [n]: the loop
    [for (const file of ...) if (file.attributes.name === n) return ...]. *)
Definition entry_named (n : string) (files : list FileData) : option FileData :=
  find (fun file => (attr_name (attributes file) =? n)%string) files.

(** The property [k] of a listing entry's [attributes], as a value. *)
Definition file_attribute (a : FileAttributes) (k : string) : JSValue :=
  if (k =? "name")%string then JStr (attr_name a)
  else if (k =? "mode")%string then JStr (attr_mode a)
  else if (k =? "size")%string then JNum (attr_size a)
  else if (k =? "is_file")%string then JBool (attr_is_file a)
  else if (k =? "is_symlink")%string then JBool (attr_is_symlink a)
  else if (k =? "is_editable")%string then JBool (attr_is_editable a)
  else if (k =? "mimetype")%string then JStr (attr_mimetype a)
  else if (k =? "created_at")%string then JStr (attr_created_at a)
  else if (k =? "modified_at")%string then
    match attr_modified_at a with Some t => JStr t | None => JNull end
  else JUndefined.

(** [data.attributes.k] for a body [data]; [None] is the TypeError raised
    when [data] or [data.attributes] is [undefined] or [null]. *)
Definition attribute_of (d : Payload) (k : string) : option JSValue :=
  match d with
  | PList _ => None
  | PFile f => Some (file_attribute (attributes f) k)
  | PJson v =>
      match prop v "attributes" with
      | Some a => prop a k
      | None => None
      end
  end.

(** [data.meta.k], likewise; a listing and an entry have no [meta]. *)
Definition meta_of (d : Payload) (k : string) : option JSValue :=
  match d with
  | PList _ | PFile _ => None
  | PJson v =>
      match prop v "meta" with
      | Some m => prop m k
      | None => None
      end
  end.

(** An object of class [File] whose attributes are not all of their
    declared types.  The types of TypeScript are erased when the program
    runs: the constructor copies the attributes of an untyped body as they
    come. *)
Record UntypedFile : Type := {
  untyped_name : JSValue;
  untyped_size : JSValue;
  untyped_symlink : JSValue;
  untyped_editable : JSValue;
  untyped_mimeType : JSValue;
  untyped_mode : string;
  untyped_location : string;
  untyped_root : string;
  untyped_isDirectory : bool;
  untyped_ownerFileAccess : FileAccess;
  untyped_userFileAccess : FileAccess;
  untyped_createdAt : DateValue;
  untyped_modifiedAt : option DateValue;
  untyped_server : Server
}.

(** What the constructor makes of an untyped body. *)
Inductive Entity : Type :=
| Declared (f : File)
| Undeclared (f : UntypedFile).

Definition as_string (v : JSValue) : option string :=
  match v with JStr s => Some s | _ => None end.

Definition as_number (v : JSValue) : option Z :=
  match v with JNum z => Some z | _ => None end.

Definition as_boolean (v : JSValue) : option bool :=
  match v with JBool b => Some b | _ => None end.

(** [string | null]. *)
Definition as_string_or_null (v : JSValue) : option (option string) :=
  match v with JStr s => Some (Some s) | JNull => Some None | _ => None end.

(** The attributes of an object that has the declared type of
    [FileData.attributes]; [None] for any other value. *)
Definition declared_attributes (a : JSValue) : option FileAttributes :=
  match a with
  | JObj fields =>
      match as_string (lookup_field "name" fields),
            as_string (lookup_field "mode" fields),
            as_number (lookup_field "size" fields),
            as_boolean (lookup_field "is_file" fields),
            as_boolean (lookup_field "is_symlink" fields),
            as_boolean (lookup_field "is_editable" fields),
            as_string (lookup_field "mimetype" fields),
            as_string (lookup_field "created_at" fields),
            as_string_or_null (lookup_field "modified_at" fields) with
      | Some n, Some m, Some sz, Some f, Some sl, Some ed, Some mt, Some cr, Some md =>
          Some {| attr_name := n; attr_mode := m; attr_size := sz;
                  attr_is_file := f; attr_is_symlink := sl; attr_is_editable := ed;
                  attr_mimetype := mt; attr_created_at := cr;
                  attr_modified_at := md |}
      | _, _, _, _, _, _, _, _, _ => None
      end
  | _ => None
  end.

Module File.

(** [new File(data, server, parent)]; an omitted parent is the empty
    string. *)
Definition new (data : FileData) (server : Server) (parent : option string) : File :=
  let parent := default EmptyString parent in
  let parent := if endsWith parent "/" then slice parent 0 (-1) else parent in
  let attributes := attributes data in
  let flag := charAt (attr_mode attributes) 0 in
  let ownerPerms := substr (attr_mode attributes) 1 3 in
  let userPerms := substr (attr_mode attributes) 4 3 in
  {| name := attr_name attributes;
     size := attr_size attributes;
     symlink := attr_is_symlink attributes;
     editable := attr_is_editable attributes;
     mimeType := attr_mimetype attributes;
     mode := attr_mode attributes;
     location := parent ++ "/" ++ attr_name attributes;
     root := if (Z.of_nat (String.length parent) =? 0) then "/" else parent;
     isDirectory := (flag =? "d")%string;
     ownerFileAccess :=
       {| read := (charAt ownerPerms 0 =? "r")%string;
          write := (charAt ownerPerms 1 =? "w")%string;
          execute := (charAt ownerPerms 2 =? "x")%string |};
     userFileAccess :=
       {| read := (charAt userPerms 0 =? "r")%string;
          write := (charAt userPerms 1 =? "w")%string;
          execute := (charAt userPerms 2 =? "x")%string |};
     createdAt := DateOf (attr_created_at attributes);
     modifiedAt := option_map DateOf (attr_modified_at attributes);
     server := server |}.

(** The constructor on attributes [a] that are not of their declared type
    but whose [mode] is the string [m]. *)
Definition untyped (a : JSValue) (m : string) (server : Server)
  (parent : option string) : UntypedFile :=
  let parent := default EmptyString parent in
  let parent := if endsWith parent "/" then slice parent 0 (-1) else parent in
  let attribute k := match prop a k with Some v => v | None => JUndefined end in
  let flag := charAt m 0 in
  let ownerPerms := substr m 1 3 in
  let userPerms := substr m 4 3 in
  {| untyped_name := attribute "name";
     untyped_size := attribute "size";
     untyped_symlink := attribute "is_symlink";
     untyped_editable := attribute "is_editable";
     untyped_mimeType := attribute "mimetype";
     untyped_mode := m;
     untyped_location := parent ++ "/" ++ toString (attribute "name");
     untyped_root := if (Z.of_nat (String.length parent) =? 0) then "/" else parent;
     untyped_isDirectory := (flag =? "d")%string;
     untyped_ownerFileAccess :=
       {| read := (charAt ownerPerms 0 =? "r")%string;
          write := (charAt ownerPerms 1 =? "w")%string;
          execute := (charAt ownerPerms 2 =? "x")%string |};
     untyped_userFileAccess :=
       {| read := (charAt userPerms 0 =? "r")%string;
          write := (charAt userPerms 1 =? "w")%string;
          execute := (charAt userPerms 2 =? "x")%string |};
     untyped_createdAt := DateFrom (attribute "created_at");
     untyped_modifiedAt := date_unless_null (attribute "modified_at");
     untyped_server := server |}.

(** [new File(data, server, parent)] for the body [data] of a response,
    which nothing has checked against [FileData].  [None] is the TypeError
    raised when [data.attributes] or a property of it cannot be read, or
    when [attributes.mode] is no string and has no [charAt]; any other body
    makes an object. *)
Definition of_body (d : Payload) (server : Server) (parent : option string)
  : option Entity :=
  match d with
  | PFile file => Some (Declared (new file server parent))
  | PList _ => None
  | PJson v =>
      match prop v "attributes" with
      | Some a =>
          match prop a "mode" with
          | Some (JStr m) =>
              match declared_attributes a with
              | Some attributes' =>
                  Some (Declared (new {| attributes := attributes' |} server parent))
              | None => Some (Undeclared (untyped a m server parent))
              end
          | _ => None
          end
      | None => None
      end
  end.

Definition list_request (s : Server) (directory : string) : AxiosRequestConfig :=
  {| method := "get"; maxRedirects := 5;
     url := server_url s ("/files/list?directory=" ++ directory);
     headers := json_headers (client s);
     data := None |}.

Definition getChildren (this : File) : Async (list File) :=
  if negb (isDirectory this) then
    throw (PterodactylAPIError
             "This file is not a directory, you cannot get it's children!")
  else
    require_verified (client (server this)) ;;;
    response <- APIRequest (list_request (server this) (location this)) [] ;;
    files <- listing_of response ;;
    ret (map (fun file => new file (server this) (Some (location this))) files).

(** [undefined] when no child has the name. *)
Definition getChild (this : File) (name' : string) : Async (option File) :=
  files <- getChildren this ;;
  ret (find (fun file => (name file =? name')%string) files).

Definition contents_request (s : Server) (path : string) : AxiosRequestConfig :=
  {| method := "get"; maxRedirects := 5;
     url := server_url s ("/files/contents?file=" ++ path);
     headers := json_headers (client s);
     data := None |}.

(** [return response.data]: the body as it came. *)
Definition getContents (this : File) : Async Payload :=
  if isDirectory this then
    throw (PterodactylAPIError
             "A directory has no file contents, did you mean getChildren?")
  else
    require_verified (client (server this)) ;;;
    response <- APIRequest (contents_request (server this) (location this)) [] ;;
    match response with
    | Some r => ret (response_data r)
    | None => throw (TypeError "Cannot read properties of undefined")
    end.

Definition download_request (this : File) : AxiosRequestConfig :=
  {| method := "get"; maxRedirects := 5;
     url := server_url (server this) ("/files/download?file=" ++ location this);
     headers := json_headers (client (server this));
     data := None |}.

(** [return response.data.attributes.url]. *)
Definition download (this : File) : Async JSValue :=
  if isDirectory this then
    throw (PterodactylAPIError
             "You cannot download a directory directly. Try compressing it first")
  else
    require_verified (client (server this)) ;;;
    response <- APIRequest (download_request this) [] ;;
    match response with
    | Some r =>
        match attribute_of (response_data r) "url" with
        | Some link => ret link
        | None => throw (TypeError "Cannot read properties of undefined")
        end
    | None => throw (TypeError "Cannot read properties of undefined")
    end.

Definition rename_request (this : File) (name' : string) : AxiosRequestConfig :=
  {| method := "put"; maxRedirects := 5;
     url := server_url (server this) "/files/rename";
     headers := json_headers (client (server this));
     data := Some (JObj [("root", JStr (root this));
                         ("files", JArr [JObj [("from", JStr (name this));
                                               ("to", JStr name')]])]) |}.

Definition rename (this : File) (name' : string) : Async File :=
  require_verified (client (server this)) ;;;
  response0 <- APIRequest (rename_request this name') [204] ;;
  response1 <- APIRequest (list_request (server this) (root this)) [] ;;
  files <- listing_of response1 ;;
  match entry_named name' files with
  | Some file => ret (new file (server this) (Some (root this)))
  | None => throw (PterodactylAPIError "Unable to complete the operation")
  end.

Definition sync (this : File) : Async File :=
  require_verified (client (server this)) ;;;
  response1 <- APIRequest (list_request (server this) (root this)) [] ;;
  files <- listing_of response1 ;;
  match entry_named (name this) files with
  | Some file => ret (new file (server this) (Some (root this)))
  | None => throw (PterodactylAPIError
                     "Unable to find the file, has it been renamed?")
  end.

Definition duplicate_request (this : File) (toLocation copyName : string)
  : AxiosRequestConfig :=
  {| method := "post"; maxRedirects := 5;
     url := server_url (server this) "/files/copy";
     headers := json_headers (client (server this));
     data := Some (JObj [("location", JStr (toLocation ++ "/" ++ copyName))]) |}.

Definition duplicate (this : File) (toLocation : string) (newName : option string)
  : Async bool :=
  let newName := default EmptyString newName in
  let toLocation :=
    if endsWith toLocation "/" then slice toLocation 0 (-1) else toLocation in
  let copyName :=
    if Z.of_nat (String.length newName) =? 0 then name this else newName in
  require_verified (client (server this)) ;;;
  response0 <- APIRequest (duplicate_request this toLocation copyName) [204] ;;
  ret true.

Definition write_request (s : Server) (path contents : string) : AxiosRequestConfig :=
  {| method := "post"; maxRedirects := 5;
     url := server_url s ("/files/write?file=" ++ path);
     headers := text_headers (client s);
     data := Some (JStr contents) |}.

(** The path [write] resolves: the node's own root and name when [path] is
    omitted, else [path] under the node's root. *)
Definition write_target (this : File) (path : option string) : string :=
  let base := root this in
  let base := if endsWith base "/" then slice base 0 (-1) else base in
  match path with
  | None => base ++ "/" ++ name this
  | Some path =>
      let path := if startsWith path "/" then slice_from path 1 else path in
      base ++ "/" ++ path
  end.

(** The write, the re-listing of the parent and the loop over it, shared
    by [write] and [writeChild]; [undefined] when the loop finds nothing. *)
Definition write_and_relist (s : Server) (contents path : string)
  : Async (option File) :=
  require_verified (client s) ;;;
  response0 <- APIRequest (write_request s path contents) [204] ;;
  let (root', name') := split_path path in
  response1 <- APIRequest (list_request s root') [] ;;
  files <- listing_of response1 ;;
  match entry_named name' files with
  | Some file => ret (Some (new file s (Some root')))
  | None => ret None
  end.

Definition write (this : File) (contents : string) (path : option string)
  : Async (option File) :=
  if isDirectory this then
    throw (PterodactylAPIError
             "A directory has no file contents, did you mean writeChild?")
  else write_and_relist (server this) contents (write_target this path).

Definition writeChild_target (this : File) (path : string) : string :=
  let base := location this in
  let base := if endsWith base "/" then slice base 0 (-1) else base in
  let path := if startsWith path "/" then slice_from path 1 else path in
  base ++ "/" ++ path.

Definition writeChild (this : File) (contents path : string) : Async (option File) :=
  if negb (isDirectory this) then
    throw (PterodactylAPIError
             "This is a file, not a directory. You cannot add or edit a child from it.")
  else write_and_relist (server this) contents (writeChild_target this path).

(** The directory [addDirectory] creates the folder in. *)
Definition addDirectory_location (this : File) (location' : option string) : string :=
  let location' := default "/" location' in
  let location' :=
    if endsWith location' "/" then slice location' 0 (-1) else location' in
  if isDirectory this then location this ++ location'
  else root this ++ location'.

Definition mkdir_request (s : Server) (location' name' : string) : AxiosRequestConfig :=
  {| method := "post"; maxRedirects := 5;
     url := server_url s ("/files/create-folder?file=" ++ location' ++ "/" ++ name');
     headers := json_headers (client s);
     data := Some (JObj [("root", JStr location'); ("name", JStr name')]) |}.

(** The creation, the re-listing and the loop, shared with
    [FileManager.addDirectory]. *)
Definition mkdir_and_relist (s : Server) (location' name' : string)
  : Async (option File) :=
  require_verified (client s) ;;;
  response0 <- APIRequest (mkdir_request s location' name') [204] ;;
  response1 <- APIRequest (list_request s location') [] ;;
  files <- listing_of response1 ;;
  match entry_named name' files with
  | Some file => ret (Some (new file s (Some location')))
  | None => ret None
  end.

Definition addDirectory (this : File) (name' : string) (location' : option string)
  : Async (option File) :=
  mkdir_and_relist (server this) (addDirectory_location this location') name'.

Definition compress_request (this : File) : AxiosRequestConfig :=
  {| method := "post"; maxRedirects := 5;
     url := server_url (server this) "/files/compress";
     headers := json_headers (client (server this));
     data := Some (JObj [("root", JStr (root this));
                         ("files", JArr [JStr (name this)])]) |}.

(** [return new File(response.data, this.server, this.root)]. *)
Definition compress (this : File) : Async Entity :=
  require_verified (client (server this)) ;;;
  response <- APIRequest (compress_request this) [] ;;
  match response with
  | Some r =>
      match of_body (response_data r) (server this) (Some (root this)) with
      | Some e => ret e
      | None => throw (TypeError "Cannot read properties of undefined")
      end
  | None => throw (TypeError "Cannot read properties of undefined")
  end.

Definition delete_request (this : File) : AxiosRequestConfig :=
  {| method := "post"; maxRedirects := 5;
     url := server_url (server this) "/files/delete";
     headers := json_headers (client (server this));
     data := Some (JObj [("root", JStr (root this));
                         ("files", JArr [JStr (name this)])]) |}.

Definition delete (this : File) : Async bool :=
  require_verified (client (server this)) ;;;
  response <- APIRequest (delete_request this) [204] ;;
  ret true.

Definition decompress_request (this : File) : AxiosRequestConfig :=
  {| method := "post"; maxRedirects := 5;
     url := server_url (server this) "/files/decompress";
     headers := json_headers (client (server this));
     data := Some (JObj [("root", JStr (root this));
                         ("file", JStr (name this))]) |}.

(** [this.delete()] is called without [await]. *)
Definition decompress (this : File) (deleteSelf : option bool) : Async bool :=
  let deleteSelf := default false deleteSelf in
  require_verified (client (server this)) ;;;
  response <- APIRequest (decompress_request this) [204] ;;
  unawaited (delete this) ;;;
  ret true.

End File.

(** ** FileManager.ts *)

Record FileManager : Type := {
  contents : list File;
  manager_server : Server
}.

(** A method that assigns to a field of its object [this : S]: the object
    is handed back with the completion, also when the method throws. *)
Definition Mutating (S A : Type) : Type :=
  Upstream -> list AxiosRequestConfig ->
  (Completion A * S) * list AxiosRequestConfig.

(** The completion and the requests of such a method, the object left
    aside. *)
Definition completion {S A} (m : Mutating S A) : Async A :=
  fun up log => (fst (fst (m up log)), snd (m up log)).

Module FileManager.

(** [new FileManager(contents, server)]. *)
Definition new (contents' : list FileData) (server : Server) : FileManager :=
  {| contents := map (fun file => File.new file server None) contents';
     manager_server := server |}.

Definition getChild (this : FileManager) (name' : string) : option File :=
  find (fun file => (name file =? name')%string) (contents this).

Definition getFileContents (this : FileManager) (path : string) : Async Payload :=
  require_verified (client (manager_server this)) ;;;
  response <- APIRequest (File.contents_request (manager_server this) path) [] ;;
  match response with
  | Some r => ret (response_data r)
  | None => throw (TypeError "Cannot read properties of undefined")
  end.

Definition getFolderContents (this : FileManager) (path : string) : Async (list File) :=
  require_verified (client (manager_server this)) ;;;
  response <- APIRequest (File.list_request (manager_server this) path) [] ;;
  files <- listing_of response ;;
  ret (map (fun file => File.new file (manager_server this) None) files).

Definition writeFile_target (path : string) : string :=
  if startsWith path "/" then slice_from path 1 else path.

Definition writeFile (this : FileManager) (contents' path : string)
  : Async (option File) :=
  File.write_and_relist (manager_server this) contents' (writeFile_target path).

Definition addDirectory_location (location' : option string) : string :=
  let location' := default "/" location' in
  if Z.of_nat (String.length location') >? 1 then
    if endsWith location' "/" then slice location' 0 (-1) else location'
  else location'.

Definition addDirectory (this : FileManager) (name' : string) (location' : option string)
  : Async (option File) :=
  File.mkdir_and_relist (manager_server this) (addDirectory_location location') name'.

Definition root_listing_request (s : Server) : AxiosRequestConfig :=
  {| method := "get"; maxRedirects := 5;
     url := server_url s "/files/list";
     headers := json_headers (client s);
     data := None |}.

(** [sync] empties [this.contents] once the request has returned, fills it
    from the listing and returns the manager itself: when the body cannot be
    read the manager is left empty. *)
Definition sync (this : FileManager) : Mutating FileManager FileManager :=
  fun up log =>
    match (require_verified (client (manager_server this)) ;;;
           APIRequest (root_listing_request (manager_server this)) []) up log with
    | (Throws e, log') => ((Throws e, this), log')
    | (Normal response, log') =>
        let emptied := {| contents := []; manager_server := manager_server this |} in
        match listing_of response up log' with
        | (Throws e, log'') => ((Throws e, emptied), log'')
        | (Normal files, log'') =>
            let this' :=
              {| contents :=
                   map (fun file => File.new file (manager_server this) None) files;
                 manager_server := manager_server this |} in
            ((Normal this', this'), log'')
        end
    end.

End FileManager.

(** ** Server.ts: the file manager, commands and power signals *)

Module Server.

Definition command_request (this : Server) (command : string) : AxiosRequestConfig :=
  {| method := "post"; maxRedirects := 5;
     url := server_url this "/command";
     headers := json_headers (client this);
     data := Some (JObj [("command", JStr command)]) |}.

Definition sendCommand (this : Server) (command : string) : Async bool :=
  require_verified (client this) ;;;
  response <- APIRequest (command_request this command) [204] ;;
  ret true.

Definition power_request (this : Server) (state : string) : AxiosRequestConfig :=
  {| method := "post"; maxRedirects := 5;
     url := server_url this "/power";
     headers := json_headers (client this);
     data := Some (JObj [("signal", JStr state)]) |}.

Definition sendPowerSignal (this : Server) (state : string) : Async bool :=
  require_verified (client this) ;;;
  response <- APIRequest (power_request this state) [204] ;;
  ret true.

Definition start (this : Server) : Async bool := sendPowerSignal this "start".

Definition stop (this : Server) : Async bool := sendPowerSignal this "stop".

Definition restart (this : Server) : Async bool := sendPowerSignal this "restart".

Definition kill (this : Server) : Async bool := sendPowerSignal this "kill".

(** [new FileManager(response.data, this)]: the constructor loops over
    [response.data.data]. *)
Definition getFileManager (this : Server) : Async FileManager :=
  require_verified (client this) ;;;
  response <- APIRequest (FileManager.root_listing_request this) [] ;;
  files <- listing_of response ;;
  ret (FileManager.new files this).

End Server.

(** ** Account.ts, APIKey.ts and Client.ts *)

(** The fields of an [Account], as the constructor copies them from
    [data.attributes]; a body is not checked against [AccountData]. *)
Record Account : Type := {
  userId : JSValue;
  admin : JSValue;
  username : JSValue;
  email : JSValue;
  firstName : JSValue;
  lastName : JSValue;
  language : JSValue
}.

(** [new Account(data)]; [None] is the TypeError of reading a property of
    a missing [data.attributes]. *)
Definition Account_new (d : Payload) : option Account :=
  match attribute_of d "id", attribute_of d "admin", attribute_of d "username",
        attribute_of d "email", attribute_of d "first_name",
        attribute_of d "last_name", attribute_of d "language" with
  | Some i, Some a, Some u, Some e, Some f, Some l, Some g =>
      Some {| userId := i; admin := a; username := u; email := e;
              firstName := f; lastName := l; language := g |}
  | _, _, _, _, _, _, _ => None
  end.

Record APIKey : Type := {
  key_identifier : JSValue;
  key_description : JSValue;
  allowedIPs : JSValue;
  lastUsedAt : option DateValue;       (* [null] stays [null] *)
  key_createdAt : option DateValue;
  key_token : JSValue
}.

(** [new APIKey(data, token)]. *)
Definition APIKey_new (d : Payload) (token' : JSValue) : option APIKey :=
  match attribute_of d "identifier", attribute_of d "description",
        attribute_of d "allowed_ips", attribute_of d "last_used_at",
        attribute_of d "created_at" with
  | Some i, Some ds, Some ips, Some used, Some created =>
      Some {| key_identifier := i; key_description := ds; allowedIPs := ips;
              lastUsedAt := date_unless_null used;
              key_createdAt := date_unless_null created;
              key_token := token' |}
  | _, _, _, _, _ => None
  end.

(** A [Client] object whole: the fields the other classes read, and the two
    they do not. *)
Record ClientState : Type := {
  core : Client;
  password : string;
  account : option Account
}.

(** A method that assigns to fields of [this]: the object is handed back
    with the completion, also when the method throws. *)
Definition Method (A : Type) : Type :=
  Upstream -> list AxiosRequestConfig ->
  (Completion A * ClientState) * list AxiosRequestConfig.

(** A method that assigns to no field. *)
Definition reading {A} (this : ClientState) (m : Async A) : Method A :=
  fun up log => let (c, log') := m up log in ((c, this), log').

(** An optional string on the left of [||]. *)
Definition or_else (o : option string) (d : string) : string :=
  match o with
  | Some s => if (s =? EmptyString)%string then d else s
  | None => d
  end.

Module Client.

(** [new Client(host, apiKey, password?)]. *)
Definition new (host' apiKey : string) (password' : option string) : ClientState :=
  let host' := if endsWith host' "/" then slice host' 0 (-1) else host' in
  {| core := {| host := host'; token := apiKey; verified := false;
                CLIENT_UNVERIFIED_ERROR := "Client is unverified, login to proceed" |};
     password := or_else password' EmptyString;
     account := None |}.

Definition account_request (this : ClientState) : AxiosRequestConfig :=
  {| method := "get"; maxRedirects := 5;
     url := host (core this) ++ "/api/client/account";
     headers := json_headers (core this);
     data := None |}.

(** [this.verified = true] *)
Definition set_verified (this : ClientState) : ClientState :=
  {| core := {| host := host (core this); token := token (core this);
                verified := true;
                CLIENT_UNVERIFIED_ERROR := CLIENT_UNVERIFIED_ERROR (core this) |};
     password := password this;
     account := account this |}.

Definition login (this : ClientState) : Method bool :=
  fun up log =>
    if verified (core this) then ((Normal true, this), log)
    else
      match APIRequest (account_request this) [] up log with
      | (Throws e, log') => ((Throws e, this), log')
      | (Normal None, log') =>
          ((Throws (TypeError "Cannot read properties of undefined"), this), log')
      | (Normal (Some response), log') =>
          if status response =? 200 then
            match Account_new (response_data response) with
            | Some a =>
                ((Normal true,
                  {| core := core (set_verified this);
                     password := password this;
                     account := Some a |}), log')
            | None =>
                ((Throws (TypeError "Cannot read properties of undefined"),
                  set_verified this), log')
            end
          else ((Normal false, this), log')
      end.

(** [const pass = password || this.password;
     if (!this.password) this.password = pass]. *)
Definition remember_password (this : ClientState) (password' : option string)
  : string * ClientState :=
  let pass := or_else password' (password this) in
  (pass,
   if (password this =? EmptyString)%string then
     {| core := core this; password := pass; account := account this |}
   else this).

Definition disable2FA_request (this : ClientState) (pass : string) : AxiosRequestConfig :=
  {| method := "delete"; maxRedirects := 5;
     url := host (core this) ++ "/api/client/account/two-factor";
     headers := json_headers (core this);
     data := Some (JObj [("password", JStr pass)]) |}.

Definition disable2FA (this : ClientState) (password' : option string) : Method bool :=
  if negb (verified (core this)) then
    reading this (throw (PterodactylAPIError (CLIENT_UNVERIFIED_ERROR (core this))))
  else
    let (pass, this') := remember_password this password' in
    reading this' (response <- APIRequest (disable2FA_request this pass) [204] ;;
                   ret true).

Definition setEmail_request (this : ClientState) (email' pass : string)
  : AxiosRequestConfig :=
  {| method := "put"; maxRedirects := 5;
     url := host (core this) ++ "/api/client/account/email";
     headers := json_headers (core this);
     data := Some (JObj [("email", JStr email'); ("password", JStr pass)]) |}.

Definition setEmail (this : ClientState) (email' : string) (password' : option string)
  : Method bool :=
  if negb (verified (core this)) then
    reading this (throw (PterodactylAPIError (CLIENT_UNVERIFIED_ERROR (core this))))
  else
    let (pass, this') := remember_password this password' in
    reading this' (response <- APIRequest (setEmail_request this email' pass) [204] ;;
                   ret true).

Definition setPassword_request (this : ClientState) (newPassword pass : string)
  : AxiosRequestConfig :=
  {| method := "put"; maxRedirects := 5;
     url := host (core this) ++ "/api/client/account/password";
     headers := json_headers (core this);
     data := Some (JObj [("current_password", JStr pass);
                         ("password", JStr newPassword);
                         ("password_confirmation", JStr newPassword)]) |}.

Definition setPassword (this : ClientState) (newPassword : string)
  (password' : option string) : Method bool :=
  if negb (verified (core this)) then
    reading this (throw (PterodactylAPIError (CLIENT_UNVERIFIED_ERROR (core this))))
  else
    let (pass, this') := remember_password this password' in
    reading this' (response <- APIRequest (setPassword_request this newPassword pass) [204] ;;
                   ret true).

(** [requestData]: the description, and [allowed_ips] when the argument is
    truthy (an array always is). *)
Definition createAPIKey_request (this : ClientState) (description : string)
  (allowedIPs' : option (list string)) : AxiosRequestConfig :=
  {| method := "post"; maxRedirects := 5;
     url := host (core this) ++ "/api/client/account/api-keys";
     headers := json_headers (core this);
     data := Some (JObj (("description", JStr description)
                         :: match allowedIPs' with
                            | Some ips => [("allowed_ips", JArr (map JStr ips))]
                            | None => []
                            end)) |}.

Definition createAPIKey (this : ClientState) (description : string)
  (allowedIPs' : option (list string)) : Async APIKey :=
  if Z.of_nat (length description) <? 4 then
    throw (PterodactylAPIError "API Key description must be of length 4 or greater")
  else
    require_verified (core this) ;;;
    response <- APIRequest (createAPIKey_request this description allowedIPs') [] ;;
    match response with
    | Some r =>
        match meta_of (response_data r) "secret_token" with
        | Some secret =>
            match APIKey_new (response_data r) secret with
            | Some key => ret key
            | None => throw (TypeError "Cannot read properties of undefined")
            end
        | None => throw (TypeError "Cannot read properties of undefined")
        end
    | None => throw (TypeError "Cannot read properties of undefined")
    end.

End Client.

(** * The vocabulary of the properties *)

(** ** Paths *)

(** A string without its last character. *)
Fixpoint drop_last (s : string) : string :=
  match s with
  | EmptyString => EmptyString
  | String c EmptyString => EmptyString
  | String c t => String c (drop_last t)
  end.

(** [path] holds two separators in a row. *)
Fixpoint has_double_separator (s : string) : bool :=
  match s with
  | EmptyString => false
  | String c t => (Ascii.eqb c "/" && startsWith t "/") || has_double_separator t
  end.

(** [path] holds a separator. *)
Fixpoint has_separator (s : string) : bool :=
  match s with
  | EmptyString => false
  | String c t => Ascii.eqb c "/" || has_separator t
  end.

(** The parent, trimmed of one trailing separator (the first statement of
    the constructor). *)
Definition trimTrailingSeparator (path : string) : string :=
  if endsWith path "/" then drop_last path else path.


(** An absolute path without two separators in a row. *)
Definition rooted (p : string) : Prop :=
  startsWith p "/" = true /\ has_double_separator p = false.

(** A directory as a caller names it: the empty path or a rooted one. *)
Definition well_formed_directory (p : string) : Prop := p = EmptyString \/ rooted p.

(** A path below a directory: no leading separator, no two in a row. *)
Definition relative (p : string) : Prop :=
  startsWith p "/" = false /\ has_double_separator p = false.

(** ** Requests *)

(** A computation only ever adds requests at the end of the log. *)
Definition append_only {A} (m : Async A) : Prop :=
  forall up log, exists suffix, snd (m up log) = (log ++ suffix)%list.

(** The body of the first request of an operation. *)
Definition first_body {A} (m : Async A) (up : Upstream) : option (option JSValue) :=
  option_map data (hd_error (requests m up)).

(** The URL of the first request of an operation. *)
Definition first_url {A} (m : Async A) (up : Upstream) : option string :=
  option_map url (hd_error (requests m up)).

(** ** Constructions *)


Definition present {A} (o : option A) : list A :=
  match o with Some a => [a] | None => [] end.





(** ** Fixtures *)

Definition sample_client : Client :=
  {| host := "https://panel.example"; token := "key"; verified := true;
     CLIENT_UNVERIFIED_ERROR := "Client is not verified" |}.

Definition sample_server : Server :=
  {| identifier := "1a2b3c"; client := sample_client |}.

Definition no_content : AxiosResponse :=
  {| status := 204; statusText := "No Content"; response_data := PJson (JStr EmptyString) |}.

Definition ok_with (d : Payload) : AxiosResponse :=
  {| status := 200; statusText := "OK"; response_data := d |}.

(** The upstream of a rejected request whose body is [{ errors: errs }]. *)
Definition rejecting (st : Z) (errs : JSValue) : Upstream :=
  fun _ _ =>
    Rejected {| error_response :=
                  Some {| status := st; statusText := EmptyString;
                          response_data := PJson (JObj [("errors", errs)]) |};
                error_code := None |}.

Definition entry (n m : string) (sz : Z) : FileData :=
  {| attributes :=
       {| attr_name := n; attr_mode := m; attr_size := sz;
          attr_is_file := negb (charAt m 0 =? "d")%string;
          attr_is_symlink := false; attr_is_editable := true;
          attr_mimetype := "text/plain";
          attr_created_at := "2021-03-01T10:00:00+00:00";
          attr_modified_at := None |} |}.

(** A file at the root of the server. *)
Definition a_txt : File := File.new (entry "a.txt" "-rw-r--" 12) sample_server None.

(** An upstream that answers the i-th request with the i-th outcome of a
    script, and refuses the connection afterwards. *)
Definition scripted (outs : list AxiosOutcome) : Upstream :=
  fun log _ =>
    nth (List.length log) outs
        (Rejected {| error_response := None; error_code := Some "ECONNREFUSED" |}).

(** ** Further vocabulary *)

(** What the loop of [APIRequest] makes of one element of the error list:
    [None] when reading the element raises a TypeError, [Some None] when
    the loop goes on to the next element, [Some (Some msg)] when it throws
    [msg]. *)
Definition verdict (e : JSValue) : option (option string) :=
  match prop e "code", prop e "status", prop e "source", prop e "detail" with
  | Some code, Some st, Some source, Some detail =>
      Some (error_message code st source detail)
  | _, _, _, _ => None
  end.

(** A call that throws [e] without any request, whatever the upstream. *)
Definition refused_locally {A} (m : Async A) (e : Exn) : Prop :=
  forall up, outcome m up = Throws e /\ requests m up = [].

(** A client that has logged in. *)
Definition logged_in (host' apiKey : string) : Client :=
  {| host := host'; token := apiKey; verified := true;
     CLIENT_UNVERIFIED_ERROR := "Client is unverified, login to proceed" |}.

(** The completion, the object left behind and the requests of a method
    started on an empty log. *)
Definition method_outcome {A} (m : Method A) (up : Upstream) : Completion A :=
  fst (fst (m up [])).

Definition method_state {A} (m : Method A) (up : Upstream) : ClientState :=
  snd (fst (m up [])).

Definition method_requests {A} (m : Method A) (up : Upstream)
  : list AxiosRequestConfig :=
  snd (m up []).

(** The object a mutating method leaves behind, started on an empty log. *)
Definition object_after {S A} (m : Mutating S A) (up : Upstream) : S :=
  snd (fst (m up [])).

(** A continuation that sends nothing. *)
Definition silent {A B} (k : A -> Async B) : Prop :=
  forall a up log, snd (k a up log) = log.

(** A description of three characters, c, l and an accented e, whose
    encoding has four bytes. *)
Definition three_characters : string :=
  String "c" (String "l" (String "195" (String "169" EmptyString))).

(** A server reached through a client that has not logged in. *)
Definition guest_server : Server :=
  {| identifier := "1a2b3c";
     client := {| host := "https://panel.example"; token := "key"; verified := false;
                  CLIENT_UNVERIFIED_ERROR := "Client is unverified, login to proceed" |} |}.

(** * Properties *)

(** ** The request gateway *)

Lemma includes_In (l : list Z) (x : Z) : includes l x = true <-> In x l.
Proof.
  unfold includes. rewrite existsb_exists. split.
  - intros [y [Hy Heq]]. apply Z.eqb_eq in Heq. now subst.
  - intros H. exists x. split; [assumption | apply Z.eqb_refl].
Qed.

Lemma accepted_status (sup : list Z) (st : Z) :
  (st =? 200) || includes sup st = true <-> st = 200 \/ In st sup.
Proof.
  rewrite orb_true_iff, Z.eqb_eq, includes_In. reflexivity.
Qed.

(** What [APIRequest] does with a response Axios resolved with. *)
Lemma APIRequest_resolved options sup (up : Upstream) log r :
  up log options = Resolved r ->
  APIRequest options sup up log =
    (if (status r =? 200) || includes sup (status r)
     then Normal (Some r)
     else Throws (PterodactylAPIError
                    ("An unexpected error occurred (" ++ of_Z (status r)
                     ++ "): " ++ statusText r)),
     (log ++ [options])%list).
Proof.
  intros Hup. unfold APIRequest, makeRequest, bind, Axios_request.
  rewrite Hup. cbn.
  destruct ((status r =? 200) || includes sup (status r)); reflexivity.
Qed.

(** What [APIRequest] does with a response Axios rejected with. *)
Lemma APIRequest_rejected options sup (up : Upstream) log error r :
  up log options = Rejected error ->
  error_response error = Some r ->
  fst (APIRequest options sup up log) =
    if status r =? 403 then Throws (Error "Invalid API key provided, request failed")
    else if truthy (data_errors (response_data r)) then
      match iterate (data_errors (response_data r)) with
      | Some es => throw_first_error es
      | None => Throws (TypeError "error is not iterable")
      end
    else Throws (AxiosFault error).
Proof.
  intros Hup Hr. unfold APIRequest, makeRequest, bind, Axios_request.
  rewrite Hup. cbn. rewrite Hr.
  destruct (status r =? 403); [reflexivity |].
  destruct (truthy (data_errors (response_data r))); [| reflexivity].
  cbn. destruct (iterate (data_errors (response_data r))); reflexivity.
Qed.

(** The loop over the error list never hands back a response. *)
Lemma throw_first_error_no_response es r : throw_first_error es <> Normal (Some r).
Proof.
  induction es as [| e rest IH]; cbn; [discriminate |].
  destruct (prop e "code"), (prop e "status"), (prop e "source"), (prop e "detail");
    try discriminate.
  destruct (error_message j j0 j1 j2); [discriminate | exact IH].
Qed.

(** A response [APIRequest] returns for a completed response is that
    response, with a status Axios resolves and the call accepts. *)
Lemma APIRequest_settled_returns options sup (up : Upstream) log code r r' :
  up log options = settle code r ->
  fst (APIRequest options sup up log) = Normal (Some r') ->
  r' = r /\ validateStatus (status r) = true /\ (status r = 200 \/ In (status r) sup).
Proof.
  intros Hup H. unfold settle in Hup.
  destruct (validateStatus (status r)) eqn:Hvalid.
  - rewrite (APIRequest_resolved _ sup _ _ _ Hup) in H. cbn [fst] in H.
    destruct ((status r =? 200) || includes sup (status r)) eqn:E; [| discriminate].
    injection H as <-. repeat split. now apply accepted_status.
  - rewrite (APIRequest_rejected options sup up log _ r Hup eq_refl) in H.
    destruct (status r =? 403); [discriminate |].
    destruct (truthy (data_errors (response_data r))); [| discriminate].
    destruct (iterate (data_errors (response_data r))); [| discriminate].
    now apply throw_first_error_no_response in H.
Qed.

(** C1, as stated, fails for a completed response whose status lies outside
    200..299: Axios rejects the promise, and [APIRequest] neither returns the
    response when its status is suppressed nor reports "An unexpected error
    occurred" when it is not; the error of Axios is thrown on. *)
Lemma APIRequest_suppressed_500_counterexample :
  let r500 := {| status := 500; statusText := "Internal Server Error";
                 response_data := PJson (JStr EmptyString) |} in
  let r404 := {| status := 404; statusText := "Not Found";
                 response_data := PJson (JStr EmptyString) |} in
  outcome (APIRequest (File.list_request sample_server "/") [500])
          (fun _ _ => settle (Some "ERR_BAD_RESPONSE") r500)
  = Throws (AxiosFault {| error_response := Some r500;
                          error_code := Some "ERR_BAD_RESPONSE" |})
  /\ outcome (APIRequest (File.list_request sample_server "/") [500])
             (fun _ _ => settle (Some "ERR_BAD_RESPONSE") r500)
     <> Normal (Some r500)
  /\ outcome (APIRequest (File.list_request sample_server "/") [])
             (fun _ _ => settle (Some "ERR_BAD_REQUEST") r404)
     = Throws (AxiosFault {| error_response := Some r404;
                             error_code := Some "ERR_BAD_REQUEST" |})
  /\ outcome (APIRequest (File.list_request sample_server "/") [])
             (fun _ _ => settle (Some "ERR_BAD_REQUEST") r404)
     <> Throws (PterodactylAPIError "An unexpected error occurred (404): Not Found").
Proof. cbv zeta. repeat split; discriminate. Qed.

(** The first element of an error list, when it carries truthy [code],
    [status] and [detail], or truthy [code], [source] and [detail] and no
    truthy [status], decides the loop. *)
Lemma throw_first_error_status e rest code st' detail :
  prop e "code" = Some code -> prop e "status" = Some st' ->
  prop e "detail" = Some detail ->
  truthy code = true -> truthy st' = true -> truthy detail = true ->
  throw_first_error (e :: rest)
  = Throws (PterodactylAPIError
              (toString code ++ " (" ++ toString st' ++ "): " ++ toString detail)).
Proof.
  intros Hc Hs Hd Tc Ts Td. cbn [throw_first_error]. rewrite Hc, Hs, Hd.
  destruct (prop e "source") as [source |] eqn:Hsrc.
  - unfold error_message, js_and. now rewrite Tc, Ts, Td.
  - destruct e; cbn in Hc, Hsrc; discriminate.
Qed.

Lemma throw_first_error_source e rest code st' source detail :
  prop e "code" = Some code -> prop e "status" = Some st' ->
  prop e "source" = Some source -> prop e "detail" = Some detail ->
  truthy code = true -> truthy st' = false ->
  truthy source = true -> truthy detail = true ->
  throw_first_error (e :: rest) = Throws (PterodactylAPIError (toString detail)).
Proof.
  intros Hc Hs Hsrc Hd Tc Ts Tsrc Td. cbn [throw_first_error].
  rewrite Hc, Hs, Hsrc, Hd. unfold error_message, js_and.
  rewrite ?Tc, ?Ts; cbn; rewrite ?Tc, ?Tsrc, ?Td; reflexivity.
Qed.

(** [response.data && response.data.errors] for a body whose [errors] is a
    list. *)
Lemma data_errors_list body es :
  prop body "errors" = Some (JArr es) -> data_errors (PJson body) = JArr es.
Proof.
  intros H. destruct body; cbn in H; try discriminate H.
  cbn. injection H as ->. reflexivity.
Qed.

(** C1, amended.  For a completed response [r], settled by Axios:
    - the call returns a response exactly when the status of [r] lies in
      200..299 and is 200 or a member of the suppressed statuses, and the
      response returned is then [r] itself;
    - any other status in 200..299 throws "An unexpected error occurred
      (<status>): <statusText>";
    - 200 always succeeds, and so does 204 when 204 is suppressed;
    - a status outside 200..299 is never returned, suppressed or not: 403
      throws "Invalid API key provided, request failed"; a body without a
      truthy [errors] throws the error of Axios as it was caught; and a
      body whose [errors] is a list is classified by its first element when
      that element carries truthy [code], [status] and [detail] ("<code>
      (<status>): <detail>") or truthy [code], [source] and [detail] (the
      detail alone). *)
Theorem APIRequest_success_iff_200_or_suppressed :
  forall options sup (up : Upstream) log code r,
    up log options = settle code r ->
    (forall r', fst (APIRequest options sup up log) = Normal (Some r')
                <-> r' = r /\ validateStatus (status r) = true
                    /\ (status r = 200 \/ In (status r) sup))
    /\ (validateStatus (status r) = true ->
        ~ (status r = 200 \/ In (status r) sup) ->
        fst (APIRequest options sup up log) =
          Throws (PterodactylAPIError
                    ("An unexpected error occurred (" ++ of_Z (status r)
                     ++ "): " ++ statusText r)))
    /\ (status r = 200 -> fst (APIRequest options sup up log) = Normal (Some r))
    /\ (status r = 204 -> In 204 sup ->
        fst (APIRequest options sup up log) = Normal (Some r))
    /\ (validateStatus (status r) = false ->
        (status r = 403 ->
         fst (APIRequest options sup up log)
         = Throws (Error "Invalid API key provided, request failed"))
        /\ (status r <> 403 ->
            truthy (data_errors (response_data r)) = false ->
            fst (APIRequest options sup up log)
            = Throws (AxiosFault {| error_response := Some r; error_code := code |}))
        /\ (status r <> 403 ->
            forall body e rest c st' detail,
              response_data r = PJson body ->
              prop body "errors" = Some (JArr (e :: rest)) ->
              prop e "code" = Some c -> prop e "status" = Some st' ->
              prop e "detail" = Some detail ->
              truthy c = true -> truthy st' = true -> truthy detail = true ->
              fst (APIRequest options sup up log)
              = Throws (PterodactylAPIError
                          (toString c ++ " (" ++ toString st' ++ "): "
                           ++ toString detail)))
        /\ (status r <> 403 ->
            forall body e rest c st' source detail,
              response_data r = PJson body ->
              prop body "errors" = Some (JArr (e :: rest)) ->
              prop e "code" = Some c -> prop e "status" = Some st' ->
              prop e "source" = Some source -> prop e "detail" = Some detail ->
              truthy c = true -> truthy st' = false ->
              truthy source = true -> truthy detail = true ->
              fst (APIRequest options sup up log)
              = Throws (PterodactylAPIError (toString detail)))).
Proof.
  intros options sup up log code r Hup.
  unfold settle in Hup.
  pose proof (accepted_status sup (status r)) as Hacc.
  destruct (validateStatus (status r)) eqn:Hvalid.
  - rewrite (APIRequest_resolved _ sup _ _ _ Hup). cbn [fst].
    destruct ((status r =? 200) || includes sup (status r)) eqn:E.
    + assert (Hok : status r = 200 \/ In (status r) sup) by now apply Hacc.
      split; [| split; [| split; [| split]]]; auto.
      * intros r'. split.
        -- intros H. injection H as <-. auto.
        -- now intros (-> & _).
      * intros _ Hn. contradiction.
      * discriminate.
    + assert (Hno : ~ (status r = 200 \/ In (status r) sup)).
      { intros H. apply Hacc in H. discriminate. }
      split; [| split; [| split; [| split]]].
      * intros r'. split; [discriminate | intros (_ & _ & H); contradiction].
      * reflexivity.
      * intros H. exfalso. apply Hno. now left.
      * intros H Hs. exfalso. apply Hno. right. now rewrite H.
      * discriminate.
  - rewrite (APIRequest_rejected options sup up log _ r Hup eq_refl).
    assert (Hnot200 : status r <> 200).
    { intros H. rewrite H in Hvalid. discriminate. }
    assert (Hnot204 : status r <> 204).
    { intros H. rewrite H in Hvalid. discriminate. }
    split; [| split; [| split; [| split]]]; try (intros; congruence).
    + intros r'. split; [| intros (_ & H & _); discriminate].
      destruct (status r =? 403); [discriminate |].
      destruct (truthy (data_errors (response_data r))); [| discriminate].
      destruct (iterate (data_errors (response_data r))); [| discriminate].
      intros H. now apply throw_first_error_no_response in H.
    + intros _. split; [| split; [| split]].
      * intros ->. reflexivity.
      * intros Hst Ht. apply Z.eqb_neq in Hst. now rewrite Hst, Ht.
      * intros Hst body e rest c st' detail Hbody Herrs Hc Hs Hd Tc Ts Td.
        apply Z.eqb_neq in Hst. rewrite Hst, Hbody, (data_errors_list _ _ Herrs).
        cbn [truthy iterate].
        now apply throw_first_error_status.
      * intros Hst body e rest c st' source detail Hbody Herrs Hc Hs Hsrc Hd Tc Ts Tsrc Td.
        apply Z.eqb_neq in Hst. rewrite Hst, Hbody, (data_errors_list _ _ Herrs).
        cbn [truthy iterate].
        now apply (throw_first_error_source e rest c st' source detail).
Qed.

Lemma APIRequest_success_iff_200_or_suppressed_witness :
  fst (APIRequest (File.list_request sample_server "/") [204]
         (fun _ _ => settle None no_content) []) = Normal (Some no_content).
Proof.
  destruct (APIRequest_success_iff_200_or_suppressed
              (File.list_request sample_server "/") [204]
              (fun _ _ => settle None no_content) [] None no_content eq_refl)
    as (_ & _ & _ & H & _).
  apply H; [reflexivity | now left].
Defined.

(** The fixture of the specification, as a completed response: HTTP 500
    with [{errors:[{code:"E1",status:"500",detail:"boom"}]}]. *)
Example APIRequest_completed_E1_500_boom :
  outcome (APIRequest (File.list_request sample_server "/") [])
    (fun _ _ =>
       settle (Some "ERR_BAD_RESPONSE")
         {| status := 500; statusText := "Internal Server Error";
            response_data :=
              PJson (JObj [("errors",
                            JArr [JObj [("code", JStr "E1"); ("status", JStr "500");
                                        ("detail", JStr "boom")]])]) |})
  = Throws (PterodactylAPIError "E1 (500): boom").
Proof. reflexivity. Qed.

(** An unsuppressed 204 is an error of the gateway. *)
Example APIRequest_204_unsuppressed :
  outcome (APIRequest (File.list_request sample_server "/") [])
          (fun _ _ => Resolved no_content)
  = Throws (PterodactylAPIError "An unexpected error occurred (204): No Content").
Proof. reflexivity. Qed.

(** When the first element of the error list carries truthy [code], [status]
    and [detail], the call throws "<code> (<status>): <detail>". *)
Lemma APIRequest_first_error_status options sup st e rest code st' detail :
  st <> 403 ->
  prop e "code" = Some code -> prop e "status" = Some st' ->
  prop e "detail" = Some detail ->
  truthy code = true -> truthy st' = true -> truthy detail = true ->
  outcome (APIRequest options sup) (rejecting st (JArr (e :: rest)))
  = Throws (PterodactylAPIError
              (toString code ++ " (" ++ toString st' ++ "): " ++ toString detail)).
Proof.
  intros Hst Hc Hs Hd Tc Ts Td.
  unfold outcome, APIRequest, makeRequest, bind, Axios_request, rejecting. cbn.
  apply Z.eqb_neq in Hst. rewrite Hst. cbn.
  rewrite Hc, Hs, Hd.
  assert (Hmsg : forall source,
             error_message code st' source detail
             = Some (toString code ++ " (" ++ toString st' ++ "): " ++ toString detail)).
  { intros source. unfold error_message, js_and. rewrite Tc, Ts, Td. reflexivity. }
  destruct (prop e "source") as [source |] eqn:Hsrc.
  - rewrite Hmsg. reflexivity.
  - destruct e; cbn in Hc, Hsrc; discriminate.
Qed.

(** When it carries no truthy [status] but truthy [code], [source] and
    [detail], the call throws the detail alone. *)
Lemma APIRequest_first_error_source options sup st e rest code st' source detail :
  st <> 403 ->
  prop e "code" = Some code -> prop e "status" = Some st' ->
  prop e "source" = Some source -> prop e "detail" = Some detail ->
  truthy code = true -> truthy st' = false ->
  truthy source = true -> truthy detail = true ->
  outcome (APIRequest options sup) (rejecting st (JArr (e :: rest)))
  = Throws (PterodactylAPIError (toString detail)).
Proof.
  intros Hst Hc Hs Hsrc Hd Tc Ts Tsrc Td.
  unfold outcome, APIRequest, makeRequest, bind, Axios_request, rejecting. cbn.
  apply Z.eqb_neq in Hst. rewrite Hst. cbn.
  rewrite Hc, Hs, Hsrc, Hd.
  unfold error_message, js_and.
  rewrite ?Tc, ?Ts; cbn; rewrite ?Tc, ?Tsrc, ?Td; reflexivity.
Qed.

(** The fixture of the specification: HTTP 500 with
    [{errors:[{code:"E1",status:"500",detail:"boom"}]}]. *)
Example APIRequest_E1_500_boom :
  outcome (APIRequest (File.list_request sample_server "/") [])
          (rejecting 500
             (JArr [JObj [("code", JStr "E1"); ("status", JStr "500");
                          ("detail", JStr "boom")]]))
  = Throws (PterodactylAPIError "E1 (500): boom").
Proof. reflexivity. Qed.

(** A 403 is reported as an invalid key, whatever its body holds. *)
Lemma APIRequest_403_invalid_key options sup errs :
  outcome (APIRequest options sup) (rejecting 403 errs)
  = Throws (Error "Invalid API key provided, request failed").
Proof. reflexivity. Qed.

(** C2.  An error list none of whose elements carries a truthy [code], a
    truthy [detail] and a truthy [status] or [source] makes the loop of
    [APIRequest] end without a throw: the call completes with [undefined]
    (here for an element without [status] and [source], and for one whose
    [detail] is the empty string), and [File.delete], which ignores the
    response, reports success. *)
Theorem APIRequest_unclassified_error_list_returns :
  let errs := JArr [JObj [("code", JStr "E1"); ("detail", JStr "boom")]] in
  let errs' := JArr [JObj [("code", JStr "E1"); ("status", JStr "500");
                           ("detail", JStr EmptyString)]] in
  outcome (APIRequest (File.list_request sample_server "/") []) (rejecting 500 errs)
    = Normal None
  /\ outcome (APIRequest (File.list_request sample_server "/") []) (rejecting 500 errs')
     = Normal None
  /\ forall d, outcome (File.delete (File.new d sample_server None)) (rejecting 500 errs)
               = Normal true.
Proof. repeat split. Qed.

(** ** Facts on the string methods *)

Section StringFacts.

Lemma substring_0_drop_last s :
  String.substring 0 (String.length s - 1) s = drop_last s.
Proof.
  induction s as [| c t IH]; [reflexivity |].
  destruct t as [| c' t']; [reflexivity |].
  cbn [String.length Nat.sub] in *. rewrite Nat.sub_0_r in *.
  cbn [String.substring drop_last]. f_equal. exact IH.
Qed.

Lemma substring_0_all s : String.substring 0 (String.length s) s = s.
Proof. induction s as [| c t IH]; cbn; [reflexivity | now rewrite IH]. Qed.

(** [s.slice(0, -1)] drops the last character. *)
Lemma slice_0_m1 s : slice s 0 (-1) = drop_last s.
Proof.
  unfold slice, resolve_index. cbn [Z.ltb Z.compare].
  rewrite <- substring_0_drop_last.
  replace (Z.to_nat (Z.min 0 (Z.of_nat (String.length s)))) with 0%nat by lia.
  replace (Z.to_nat
             (Z.max (Z.max (Z.of_nat (String.length s) + -1) 0
                     - Z.min 0 (Z.of_nat (String.length s))) 0))
    with (String.length s - 1)%nat by lia.
  reflexivity.
Qed.

(** [s.slice(1)] drops the first character. *)
Lemma slice_from_1 c t : slice_from (String c t) 1 = t.
Proof.
  unfold slice_from, slice, resolve_index.
  cbn [String.length Z.ltb Z.compare].
  destruct (Z.of_nat (S (String.length t)) <? 0) eqn:E;
    [apply Z.ltb_lt in E; lia |].
  replace (Z.to_nat (Z.min 1 (Z.of_nat (S (String.length t))))) with 1%nat by lia.
  replace (Z.to_nat
             (Z.max (Z.min (Z.of_nat (S (String.length t)))
                       (Z.of_nat (S (String.length t)))
                     - Z.min 1 (Z.of_nat (S (String.length t)))) 0))
    with (String.length t) by lia.
  cbn [String.substring]. apply substring_0_all.
Qed.

Lemma startsWith_cons c t :
  startsWith (String c t) "/" = Ascii.eqb c "/".
Proof.
  unfold startsWith. cbn [String.prefix].
  destruct (ascii_dec "/" c) as [<- | Hne].
  - now destruct t.
  - symmetry. apply Ascii.eqb_neq. congruence.
Qed.

Lemma startsWith_sep s :
  startsWith s "/" = true <-> exists t, s = String "/" t.
Proof.
  destruct s as [| c t].
  - split; [discriminate | intros [t H]; discriminate].
  - rewrite startsWith_cons, Ascii.eqb_eq. split.
    + intros ->. eauto.
    + intros [t' H]. congruence.
Qed.

Lemma endsWith_cons c t :
  endsWith (String c t) "/" =
    match t with
    | EmptyString => Ascii.eqb c "/"
    | _ => endsWith t "/"
    end.
Proof.
  cbn [endsWith]. destruct t as [| c' t'].
  - cbn. destruct (Ascii.eqb c "/"); reflexivity.
  - replace (String c (String c' t') =? "/")%string with false; [reflexivity |].
    symmetry. apply String.eqb_neq. congruence.
Qed.

(** A string that ends with a separator is its [drop_last] and the
    separator. *)
Lemma endsWith_drop_last s :
  endsWith s "/" = true -> s = drop_last s ++ "/".
Proof.
  induction s as [| c t IH]; [discriminate |].
  rewrite endsWith_cons. destruct t as [| c' t'].
  - intros H. apply Ascii.eqb_eq in H. now subst.
  - intros H. cbn [drop_last append]. f_equal. now apply IH.
Qed.

Lemma endsWith_append_sep q : endsWith (q ++ "/") "/" = true.
Proof.
  induction q as [| c t IH]; [reflexivity |].
  cbn [append]. rewrite endsWith_cons.
  destruct (t ++ "/") eqn:E; [destruct t; discriminate | exact IH].
Qed.

Lemma drop_last_append_sep q : drop_last (q ++ "/") = q.
Proof.
  induction q as [| c t IH]; [reflexivity |].
  cbn [append drop_last].
  destruct (t ++ "/") eqn:E; [destruct t; discriminate |].
  now rewrite IH.
Qed.

Lemma startsWith_append a b :
  startsWith (a ++ b) "/" =
    match a with EmptyString => startsWith b "/" | _ => startsWith a "/" end.
Proof. destruct a; [reflexivity | cbn [append]; now rewrite !startsWith_cons]. Qed.

Lemma append_empty_r a : a ++ EmptyString = a.
Proof. induction a as [| c t IH]; cbn; [reflexivity | now rewrite IH]. Qed.

Lemma endsWith_append a b :
  endsWith (a ++ b) "/" =
    match b with EmptyString => endsWith a "/" | _ => endsWith b "/" end.
Proof.
  destruct b as [| cb tb]; [now rewrite append_empty_r |].
  induction a as [| c t IH]; cbn [append]; [reflexivity |].
  rewrite endsWith_cons, IH.
  destruct (t ++ String cb tb) eqn:E; [destruct t; discriminate | reflexivity].
Qed.

(** Two separators in a row in [a ++ b] lie in [a], in [b], or across the
    junction. *)
Lemma has_double_separator_append a b :
  has_double_separator (a ++ b) =
    has_double_separator a || has_double_separator b
    || (endsWith a "/" && startsWith b "/").
Proof.
  induction a as [| c t IH]; cbn [append has_double_separator].
  - cbn. now rewrite orb_false_r.
  - rewrite IH, startsWith_append, endsWith_cons.
    destruct t as [| c' t'].
    + cbn. destruct (Ascii.eqb c "/"), (has_double_separator b),
        (startsWith b "/"); reflexivity.
    + destruct (Ascii.eqb c "/"), (startsWith (String c' t') "/"),
        (has_double_separator (String c' t')), (has_double_separator b),
        (endsWith (String c' t') "/"), (startsWith b "/"); reflexivity.
Qed.

Lemma no_separator_no_double s :
  has_separator s = false ->
  has_double_separator s = false /\ startsWith s "/" = false
  /\ endsWith s "/" = false.
Proof.
  induction s as [| c t IH]; [now cbn |].
  cbn [has_separator has_double_separator].
  intros H. apply orb_false_iff in H as [Hc Ht].
  destruct (IH Ht) as [Hd [Hs He]].
  rewrite startsWith_cons, endsWith_cons, Hc, Hd. cbn.
  repeat split. destruct t; [reflexivity | exact He].
Qed.

End StringFacts.

(** ** The constructor of File *)

(** [trimTrailingSeparator] removes exactly one trailing separator, and
    nothing from a path that has none. *)
Lemma trimTrailingSeparator_spec path :
  (forall q, path = q ++ "/" -> trimTrailingSeparator path = q)
  /\ (endsWith path "/" = false -> trimTrailingSeparator path = path).
Proof.
  unfold trimTrailingSeparator. split.
  - intros q ->. now rewrite endsWith_append_sep, drop_last_append_sep.
  - now intros ->.
Qed.

Lemma File_new_location d srv parent :
  location (File.new d srv parent)
  = trimTrailingSeparator (default EmptyString parent) ++ "/" ++ attr_name (attributes d).
Proof.
  unfold File.new, trimTrailingSeparator. cbn [location].
  now rewrite slice_0_m1.
Qed.

Lemma File_new_root d srv parent :
  root (File.new d srv parent)
  = if (String.length (trimTrailingSeparator (default EmptyString parent)) =? 0)%nat
    then "/" else trimTrailingSeparator (default EmptyString parent).
Proof.
  unfold File.new, trimTrailingSeparator. cbn [root].
  rewrite slice_0_m1.
  destruct (endsWith (default EmptyString parent) "/");
    match goal with
    | |- context [String.length ?s] => destruct (String.length s); reflexivity
    end.
Qed.


Lemma one_char_eqb c x :
  (String c EmptyString =? String x EmptyString)%string = true <-> c = x.
Proof.
  cbn. destruct (Ascii.eqb_spec c x) as [-> | Hne].
  - split; reflexivity.
  - split; [discriminate | contradiction].
Qed.

(** C6.  Decoding of a 7-character mode: character 0 is "d" exactly for a
    directory; characters 1-3 are the owner's and 4-6 the user's
    read/write/execute, each true exactly when the character is "r", "w",
    "x" at its position.  The mode "drwxr-x" is a directory, owner rwx,
    user r-x. *)
Theorem File_new_mode_decoding :
  forall d srv parent,
    String.length (attr_mode (attributes d)) = 7%nat ->
    let m := attr_mode (attributes d) in
    let f := File.new d srv parent in
    (isDirectory f = true <-> String.get 0 m = Some "d"%char)
    /\ (read (ownerFileAccess f) = true <-> String.get 1 m = Some "r"%char)
    /\ (write (ownerFileAccess f) = true <-> String.get 2 m = Some "w"%char)
    /\ (execute (ownerFileAccess f) = true <-> String.get 3 m = Some "x"%char)
    /\ (read (userFileAccess f) = true <-> String.get 4 m = Some "r"%char)
    /\ (write (userFileAccess f) = true <-> String.get 5 m = Some "w"%char)
    /\ (execute (userFileAccess f) = true <-> String.get 6 m = Some "x"%char)
    /\ (m = "drwxr-x" ->
        isDirectory f = true
        /\ ownerFileAccess f = {| read := true; write := true; execute := true |}
        /\ userFileAccess f = {| read := true; write := false; execute := true |}).
Proof.
  intros d srv parent. cbv zeta. unfold File.new.
  cbn [isDirectory ownerFileAccess userFileAccess read write execute].
  generalize (attr_mode (attributes d)). intros m Hlen.
  destruct m as [| c0 [| c1 [| c2 [| c3 [| c4 [| c5 [| c6 [| c7 m]]]]]]]];
    try discriminate Hlen.
  unfold charAt, substr. cbn [String.substring String.get].
  assert (Hsome : forall a b : ascii, Some a = Some b <-> a = b)
    by (intros a b; split; congruence).
  rewrite !one_char_eqb, !Hsome.
  repeat split; try tauto.
  all: match goal with
       | Hm : String _ _ = _ |- _ => injection Hm as -> -> -> -> -> -> ->
       end; reflexivity.
Qed.

Lemma File_new_mode_decoding_witness :
  isDirectory (File.new (entry "plugins" "drwxr-x" 4096) sample_server None) = true
  /\ userFileAccess (File.new (entry "plugins" "drwxr-x" 4096) sample_server None)
     = {| read := true; write := false; execute := true |}.
Proof.
  pose proof (File_new_mode_decoding (entry "plugins" "drwxr-x" 4096)
                sample_server None eq_refl) as H.
  cbv zeta in H.
  destruct H as (_ & _ & _ & _ & _ & _ & _ & H).
  destruct (H eq_refl) as (Hd & _ & Hu). split; assumption.
Defined.

(** ** Running asynchronous computations *)

Section AsyncFacts.

Context {A B : Type}.

Lemma bind_Normal (m : Async A) (k : A -> Async B) up log a log' :
  m up log = (Normal a, log') -> bind m k up log = k a up log'.
Proof. intros H. unfold bind. now rewrite H. Qed.

Lemma bind_Normal_inv (m : Async A) (k : A -> Async B) up log b log'' :
  bind m k up log = (Normal b, log'') ->
  exists a log', m up log = (Normal a, log') /\ k a up log' = (Normal b, log'').
Proof.
  unfold bind. destruct (m up log) as [[a | e] log'] eqn:E.
  - intros H. now exists a, log'.
  - discriminate.
Qed.

End AsyncFacts.

Lemma require_verified_true c up log :
  verified c = true -> require_verified c up log = (Normal tt, log).
Proof. intros H. unfold require_verified. now rewrite H. Qed.

(** Every call of [APIRequest] hands exactly one request to Axios. *)
Lemma APIRequest_log options sup up log :
  snd (APIRequest options sup up log) = (log ++ [options])%list.
Proof.
  unfold APIRequest, makeRequest, bind, Axios_request.
  destruct (up log options) as [r | err]; cbn.
  - destruct ((status r =? 200) || includes sup (status r)); reflexivity.
  - destruct (error_response err) as [r |].
    + destruct (status r =? 403); [reflexivity |].
      destruct (truthy (data_errors (response_data r))); [| reflexivity].
      cbn. destruct (iterate (data_errors (response_data r))); reflexivity.
    + destruct (error_code err) as [s |]; [| reflexivity].
      destruct (s =? "ECONNREFUSED")%string eqn:E1.
      * apply String.eqb_eq in E1. subst. reflexivity.
      * destruct (s =? "ENOTFOUND")%string eqn:E2.
        -- apply String.eqb_eq in E2. subst. reflexivity.
        -- apply String.eqb_neq in E1, E2.
           repeat match goal with
                  | |- context [match ?x with _ => _ end] =>
                      match type of x with
                      | string => destruct x
                      | ascii => destruct x
                      | bool => destruct x
                      end
                  end; reflexivity || congruence.
Qed.

(** ** Entries of a listing *)

Lemma entry_named_absent n files :
  entry_named n files = None <->
  forall file, In file files -> attr_name (attributes file) <> n.
Proof.
  unfold entry_named. split.
  - intros H file Hin Heq.
    pose proof (find_none _ _ H file Hin) as Hf. cbn in Hf.
    apply String.eqb_neq in Hf. contradiction.
  - intros H. destruct (find _ files) as [file |] eqn:E; [| reflexivity].
    apply find_some in E as [Hin Heq]. apply String.eqb_eq in Heq.
    exfalso. exact (H file Hin Heq).
Qed.

(** In a listing whose names are distinct, the entry found under a name is
    the entry of that name. *)
Lemma entry_named_unique files d :
  NoDup (map (fun file => attr_name (attributes file)) files) ->
  In d files ->
  entry_named (attr_name (attributes d)) files = Some d.
Proof.
  induction files as [| e rest IH]; intros Hnd Hin; [destruct Hin |].
  cbn [map] in Hnd. inversion Hnd as [| x xs Hnotin Hrest]; subst.
  unfold entry_named. cbn [find].
  destruct (String.eqb_spec (attr_name (attributes e)) (attr_name (attributes d)))
    as [Heq | Hne].
  - destruct Hin as [-> | Hin]; [reflexivity |].
    exfalso. apply Hnotin. rewrite Heq.
    apply (in_map (fun file => attr_name (attributes file))) in Hin. exact Hin.
  - destruct Hin as [-> | Hin]; [contradiction |]. now apply IH.
Qed.

(** ** Re-listing after a mutation *)

(** [rename] throws when the listing read after the rename has no entry of
    the new name. *)
Lemma rename_missing_entry_throws this n (up : Upstream) r0 r1 l :
  verified (client (server this)) = true ->
  up [] (File.rename_request this n) = Resolved r0 ->
  status r0 = 200 \/ status r0 = 204 ->
  up [File.rename_request this n] (File.list_request (server this) (root this))
    = Resolved r1 ->
  status r1 = 200 -> response_data r1 = PList l ->
  (forall file, In file l -> attr_name (attributes file) <> n) ->
  outcome (File.rename this n) up
  = Throws (PterodactylAPIError "Unable to complete the operation").
Proof.
  intros Hv Hup0 Hst0 Hup1 Hst1 Hl Habsent.
  unfold outcome, File.rename.
  rewrite (bind_Normal _ _ _ _ _ _ (require_verified_true _ up [] Hv)).
  assert (H0 : APIRequest (File.rename_request this n) [204] up []
               = (Normal (Some r0), [File.rename_request this n])).
  { rewrite (APIRequest_resolved _ _ _ _ _ Hup0).
    destruct Hst0 as [-> | ->]; reflexivity. }
  rewrite (bind_Normal _ _ _ _ _ _ H0).
  unfold bind at 1.
  rewrite (APIRequest_resolved _ _ _ _ _ Hup1), Hst1. cbn.
  unfold listing_of, bind, ret. rewrite Hl. cbn [listing].
  apply entry_named_absent in Habsent. now rewrite Habsent.
Qed.

(** The fixture of the specification: "a.txt" renamed to "b.txt", and a
    listing that still shows "a.txt" only. *)
Example rename_a_txt_b_txt_omitted :
  outcome (File.rename (File.new (entry "a.txt" "-rw-r--" 12) sample_server None) "b.txt")
          (scripted [Resolved no_content;
                     Resolved (ok_with (PList [entry "a.txt" "-rw-r--" 12]))])
  = Throws (PterodactylAPIError "Unable to complete the operation").
Proof. reflexivity. Qed.

(** [write_and_relist], the body of [write], [writeChild] and
    [FileManager.writeFile], completes with [undefined] in that situation. *)
Lemma write_and_relist_missing_entry srv contents path (up : Upstream) r0 r1 l :
  verified (client srv) = true ->
  up [] (File.write_request srv path contents) = Resolved r0 ->
  status r0 = 200 \/ status r0 = 204 ->
  up [File.write_request srv path contents]
     (File.list_request srv (fst (split_path path))) = Resolved r1 ->
  status r1 = 200 -> response_data r1 = PList l ->
  (forall file, In file l -> attr_name (attributes file) <> snd (split_path path)) ->
  outcome (File.write_and_relist srv contents path) up = Normal None.
Proof.
  intros Hv Hup0 Hst0 Hup1 Hst1 Hl Habsent.
  unfold outcome, File.write_and_relist.
  rewrite (bind_Normal _ _ _ _ _ _ (require_verified_true _ up [] Hv)).
  assert (H0 : APIRequest (File.write_request srv path contents) [204] up []
               = (Normal (Some r0), [File.write_request srv path contents])).
  { rewrite (APIRequest_resolved _ _ _ _ _ Hup0).
    destruct Hst0 as [-> | ->]; reflexivity. }
  rewrite (bind_Normal _ _ _ _ _ _ H0).
  destruct (split_path path) as [root' name'] eqn:Esplit. cbn [fst snd] in *.
  unfold bind at 1.
  rewrite (APIRequest_resolved _ _ _ _ _ Hup1), Hst1. cbn.
  unfold listing_of, bind, ret. rewrite Hl. cbn [listing].
  apply entry_named_absent in Habsent. now rewrite Habsent.
Qed.

(** C3.  [write], [writeChild] and [addDirectory] end their loop over the
    re-listing without a throw: when the listing has no entry of the
    expected name they complete with [undefined]. *)
Theorem write_missing_entry_returns_undefined :
  let a_txt := File.new (entry "a.txt" "-rw-r--" 12) sample_server None in
  let plugins := File.new (entry "plugins" "drwxr-x" 4096) sample_server None in
  let up := scripted [Resolved no_content; Resolved (ok_with (PList []))] in
  outcome (File.write a_txt "hello" None) up = Normal None
  /\ outcome (File.write a_txt "hello" (Some "b.txt")) up = Normal None
  /\ outcome (File.writeChild plugins "hello" "b.txt") up = Normal None
  /\ outcome (File.addDirectory plugins "cache" None) up = Normal None.
Proof. repeat split; reflexivity. Qed.

(** ** Decompression *)

(** C7.  Whatever the flag, [decompress] issues exactly two requests once
    the first has gone through: a POST to [/files/decompress] of the node's
    server with the body [{root, file}], and then a POST to [/files/delete]
    of the same server with the body [{root, files: [name]}], the node's own
    root and name; it returns true, whatever the panel answers to the
    delete.  The flag does not enter the computation. *)
Theorem decompress_deletes_whatever_the_flag :
  forall this (deleteSelf : option bool) (up : Upstream) response,
    verified (client (server this)) = true ->
    fst (APIRequest (File.decompress_request this) [204] up []) = Normal response ->
    requests (File.decompress this deleteSelf) up
      = [ {| method := "post"; maxRedirects := 5;
             url := host (client (server this)) ++ "/api/client/servers/"
                    ++ identifier (server this) ++ "/files/decompress";
             headers := [("Accept", "application/json");
                         ("Content-Type", "application/json");
                         ("Authorization", "Bearer " ++ token (client (server this)))];
             data := Some (JObj [("root", JStr (root this));
                                 ("file", JStr (name this))]) |};
          {| method := "post"; maxRedirects := 5;
             url := host (client (server this)) ++ "/api/client/servers/"
                    ++ identifier (server this) ++ "/files/delete";
             headers := [("Accept", "application/json");
                         ("Content-Type", "application/json");
                         ("Authorization", "Bearer " ++ token (client (server this)))];
             data := Some (JObj [("root", JStr (root this));
                                 ("files", JArr [JStr (name this)])]) |} ]
    /\ outcome (File.decompress this deleteSelf) up = Normal true
    /\ File.decompress this deleteSelf = File.decompress this (Some true)
    /\ File.decompress this deleteSelf = File.decompress this (Some false).
Proof.
  intros this deleteSelf up response Hv Hreq.
  assert (Hrun : File.decompress this deleteSelf up []
                 = (Normal true, [File.decompress_request this; File.delete_request this])).
  { unfold File.decompress. cbv zeta.
    rewrite (bind_Normal _ _ _ _ _ _ (require_verified_true _ up [] Hv)).
    pose proof (APIRequest_log (File.decompress_request this) [204] up []) as Hlog.
    destruct (APIRequest (File.decompress_request this) [204] up []) as [c log1] eqn:E.
    cbn in Hreq, Hlog. subst c log1.
    rewrite (bind_Normal _ _ _ _ _ _ E).
    unfold bind at 1, unawaited, File.delete.
    rewrite (bind_Normal _ _ _ _ _ _ (require_verified_true _ up _ Hv)).
    pose proof (APIRequest_log (File.delete_request this) [204] up
                  [File.decompress_request this]) as Hlog.
    destruct (APIRequest (File.delete_request this) [204] up
                [File.decompress_request this]) as [c log2] eqn:E2.
    cbn in Hlog. subst log2.
    unfold bind at 1. rewrite E2.
    destruct c; reflexivity. }
  unfold requests, outcome. rewrite Hrun. repeat split.
Qed.

Lemma decompress_deletes_whatever_the_flag_witness :
  requests (File.decompress (File.new (entry "world.tar" "-rw-r--" 900) sample_server None)
              (Some false))
           (scripted [Resolved no_content; Resolved no_content])
  = [ {| method := "post"; maxRedirects := 5;
         url := "https://panel.example/api/client/servers/1a2b3c/files/decompress";
         headers := [("Accept", "application/json");
                     ("Content-Type", "application/json");
                     ("Authorization", "Bearer key")];
         data := Some (JObj [("root", JStr "/"); ("file", JStr "world.tar")]) |};
      {| method := "post"; maxRedirects := 5;
         url := "https://panel.example/api/client/servers/1a2b3c/files/delete";
         headers := [("Accept", "application/json");
                     ("Content-Type", "application/json");
                     ("Authorization", "Bearer key")];
         data := Some (JObj [("root", JStr "/");
                             ("files", JArr [JStr "world.tar"])]) |} ].
Proof.
  destruct (decompress_deletes_whatever_the_flag
              (File.new (entry "world.tar" "-rw-r--" 900) sample_server None)
              (Some false)
              (scripted [Resolved no_content; Resolved no_content])
              (Some no_content) eq_refl eq_refl) as (H & _).
  exact H.
Defined.

(** ** Re-synchronisation *)

Lemma File_new_fields d srv parent :
  let f := File.new d srv parent in
  name f = attr_name (attributes d)
  /\ size f = attr_size (attributes d)
  /\ mode f = attr_mode (attributes d)
  /\ forall parent',
       let f' := File.new d srv parent' in
       name f' = name f /\ size f' = size f /\ isDirectory f' = isDirectory f
       /\ ownerFileAccess f' = ownerFileAccess f
       /\ userFileAccess f' = userFileAccess f.
Proof. cbv zeta. unfold File.new. cbn. repeat split. Qed.

(** C8.  Round trip: an entity built from a listing entry, re-synchronised
    against a listing of its parent that still holds that entry (the names
    of a directory listing being distinct), comes back with the same name,
    size, directory flag and owner and user permissions. *)
Theorem sync_round_trip :
  forall d srv parent (up : Upstream) r l,
    let this := File.new d srv parent in
    verified (client srv) = true ->
    up [] (File.list_request srv (root this)) = Resolved r ->
    status r = 200 ->
    response_data r = PList l ->
    In d l ->
    NoDup (map (fun file => attr_name (attributes file)) l) ->
    exists f',
      outcome (File.sync this) up = Normal f'
      /\ name f' = name this /\ size f' = size this
      /\ isDirectory f' = isDirectory this
      /\ ownerFileAccess f' = ownerFileAccess this
      /\ userFileAccess f' = userFileAccess this.
Proof.
  intros d srv parent up r l this Hv Hup Hst Hl Hin Hnd.
  exists (File.new d srv (Some (root this))).
  split.
  - unfold outcome, File.sync.
    change (server this) with srv.
    rewrite (bind_Normal _ _ _ _ _ _ (require_verified_true _ up [] Hv)).
    unfold bind at 1.
    rewrite (APIRequest_resolved _ _ _ _ _ Hup), Hst. cbn.
    unfold listing_of, bind, ret. rewrite Hl. cbn [listing].
    change (name this) with (attr_name (attributes d)).
    now rewrite (entry_named_unique l d Hnd Hin).
  - destruct (File_new_fields d srv parent) as (_ & _ & _ & H).
    exact (H (Some (root this))).
Qed.

Lemma sync_round_trip_witness :
  exists f',
    outcome (File.sync (File.new (entry "a.txt" "-rw-r--" 12) sample_server (Some "/games/")))
            (scripted [Resolved (ok_with (PList [entry "logs" "drwxr-x" 4096;
                                                 entry "a.txt" "-rw-r--" 12]))])
    = Normal f'
    /\ name f' = "a.txt" /\ size f' = 12.
Proof.
  destruct (sync_round_trip (entry "a.txt" "-rw-r--" 12) sample_server (Some "/games/")
              (scripted [Resolved (ok_with (PList [entry "logs" "drwxr-x" 4096;
                                                   entry "a.txt" "-rw-r--" 12]))])
              (ok_with (PList [entry "logs" "drwxr-x" 4096; entry "a.txt" "-rw-r--" 12]))
              [entry "logs" "drwxr-x" 4096; entry "a.txt" "-rw-r--" 12]
              eq_refl eq_refl eq_refl eq_refl
              (or_intror (or_introl eq_refl))) as (f' & Hrun & Hn & Hs & _).
  - cbn. repeat constructor; cbn; intuition discriminate.
  - exists f'. repeat split; assumption.
Defined.

(** ** FileManager.getFolderContents *)

Lemma File_new_at_root d srv :
  root (File.new d srv None) = "/"
  /\ location (File.new d srv None) = "/" ++ name (File.new d srv None).
Proof. split; reflexivity. Qed.

(** [getFolderContents] returns, when the listing goes through, one entity
    per entry, each built without a parent. *)
Lemma getFolderContents_listing this path (up : Upstream) r l :
  verified (client (manager_server this)) = true ->
  up [] (File.list_request (manager_server this) path) = Resolved r ->
  status r = 200 -> response_data r = PList l ->
  outcome (FileManager.getFolderContents this path) up
  = Normal (map (fun file => File.new file (manager_server this) None) l).
Proof.
  intros Hv Hup Hst Hl. unfold outcome, FileManager.getFolderContents.
  rewrite (bind_Normal _ _ _ _ _ _ (require_verified_true _ up [] Hv)).
  unfold bind at 1.
  rewrite (APIRequest_resolved _ _ _ _ _ Hup), Hst. cbn.
  unfold listing_of, bind, ret. now rewrite Hl.
Qed.

(** C10.  Whatever directory is listed, the entities [getFolderContents]
    returns have root "/" and location "/" + name: they are built with the
    default, empty parent and not with the listed path. *)
Theorem getFolderContents_parents_at_root :
  forall this path (up : Upstream) files,
    outcome (FileManager.getFolderContents this path) up = Normal files ->
    forall f, In f files -> root f = "/" /\ location f = "/" ++ name f.
Proof.
  intros this path up files Hrun f Hin.
  unfold outcome, FileManager.getFolderContents in Hrun.
  destruct (bind _ _ up []) as [c log'] eqn:E in Hrun.
  cbn in Hrun. subst c.
  apply bind_Normal_inv in E as ([] & log1 & _ & E).
  apply bind_Normal_inv in E as (resp & log2 & _ & E).
  apply bind_Normal_inv in E as (l & log3 & _ & E).
  unfold ret in E. injection E as <- _.
  apply in_map_iff in Hin as (d & <- & _).
  apply File_new_at_root.
Qed.

Lemma getFolderContents_parents_at_root_witness :
  root (File.new (entry "server.jar" "-rw-r--" 300) sample_server None) = "/"
  /\ location (File.new (entry "server.jar" "-rw-r--" 300) sample_server None)
     = "/" ++ name (File.new (entry "server.jar" "-rw-r--" 300) sample_server None).
Proof.
  apply (getFolderContents_parents_at_root
           (FileManager.new [] sample_server) "/games/minecraft"
           (scripted [Resolved (ok_with (PList [entry "server.jar" "-rw-r--" 300]))])
           [File.new (entry "server.jar" "-rw-r--" 300) sample_server None]).
  - reflexivity.
  - left. reflexivity.
Defined.

(** ** The requests an operation sends *)

Create HintDb async discriminated.

Lemma append_only_ret {A} (a : A) : append_only (ret a).
Proof. intros up log. exists []. cbn. now rewrite app_nil_r. Qed.

Lemma append_only_throw {A} e : append_only (@throw A e).
Proof. intros up log. exists []. cbn. now rewrite app_nil_r. Qed.

Lemma append_only_bind {A B} (m : Async A) (k : A -> Async B) :
  append_only m -> (forall a, append_only (k a)) -> append_only (bind m k).
Proof.
  intros Hm Hk up log. unfold bind.
  destruct (Hm up log) as [s1 H1].
  destruct (m up log) as [[a | e] log1]; cbn in H1; subst log1.
  - destruct (Hk a up (log ++ s1)%list) as [s2 H2].
    exists (s1 ++ s2)%list. now rewrite H2, app_assoc.
  - now exists s1.
Qed.

Lemma append_only_APIRequest options sup : append_only (APIRequest options sup).
Proof. intros up log. exists [options]. apply APIRequest_log. Qed.

Lemma append_only_unawaited {A} (m : Async A) :
  append_only m -> append_only (unawaited m).
Proof. intros Hm up log. destruct (Hm up log) as [s H]. now exists s. Qed.

Lemma append_only_require_verified c : append_only (require_verified c).
Proof.
  unfold require_verified.
  destruct (negb (verified c)); [apply append_only_throw | apply append_only_ret].
Qed.

Lemma append_only_listing_of response : append_only (listing_of response).
Proof.
  unfold listing_of. destruct response as [r |]; [| apply append_only_throw].
  destruct (listing (response_data r)); [apply append_only_ret | apply append_only_throw].
Qed.

#[local] Hint Resolve append_only_ret append_only_throw append_only_APIRequest
  append_only_require_verified append_only_listing_of : async.

(** Solves [append_only] goals over the operations, following the binds
    and the case distinctions of their bodies. *)
Ltac append_only_tac :=
  repeat first
    [ progress auto with async
    | match goal with
      | |- append_only (bind _ _) => apply append_only_bind; [| intros ?]
      | |- append_only (unawaited _) => apply append_only_unawaited
      | |- append_only (match ?x with _ => _ end) => destruct x
      | |- append_only (let (_, _) := ?x in _) => destruct x
      | |- append_only (if ?b then _ else _) => destruct b
      end ].

(** The first request of an operation that starts, once the client is known
    to be verified, with a call of [APIRequest]. *)
Lemma first_request {A} c options sup (k : option AxiosResponse -> Async A) up :
  verified c = true ->
  (forall response, append_only (k response)) ->
  hd_error
    (requests (require_verified c ;;; response <- APIRequest options sup ;; k response) up)
  = Some options.
Proof.
  intros Hv Hk. unfold requests.
  rewrite (bind_Normal _ _ _ _ _ _ (require_verified_true _ up [] Hv)).
  pose proof (APIRequest_log options sup up []) as Hlog.
  unfold bind. destruct (APIRequest options sup up []) as [[response | e] log1].
  - cbn in Hlog. subst log1.
    destruct (Hk response up [options]) as [s Hs]. now rewrite Hs.
  - cbn in Hlog. now subst log1.
Qed.

(** C9, as stated, fails for the copy: [duplicate] sends the one field
    [location], not [{root, files: [name]}]. *)
Lemma duplicate_body_counterexample :
  first_body (File.duplicate a_txt "/backup/" None) (scripted [Resolved no_content])
    = Some (Some (JObj [("location", JStr "/backup/a.txt")]))
  /\ first_body (File.duplicate a_txt "/backup/" None) (scripted [Resolved no_content])
     <> Some (Some (JObj [("root", JStr (root a_txt));
                          ("files", JArr [JStr (name a_txt)])])).
Proof. split; [reflexivity | discriminate]. Qed.

(** C9, amended.  With a verified client the first request of each
    operation carries: rename [{root, files: [{from, to}]}]; delete and
    compress [{root, files: [name]}]; mkdir [{root, name}] (from a node and
    from the manager); decompress [{root, file}]; and the copy
    [{location}], the target directory less one trailing separator, a
    separator, and the new name or, when that is omitted or empty, the
    node's own. *)
Theorem request_bodies :
  forall this (up : Upstream),
    verified (client (server this)) = true ->
    (forall n,
        first_body (File.rename this n) up
        = Some (Some (JObj [("root", JStr (root this));
                            ("files", JArr [JObj [("from", JStr (name this));
                                                  ("to", JStr n)]])])))
    /\ first_body (File.delete this) up
       = Some (Some (JObj [("root", JStr (root this));
                           ("files", JArr [JStr (name this)])]))
    /\ first_body (File.compress this) up
       = Some (Some (JObj [("root", JStr (root this));
                           ("files", JArr [JStr (name this)])]))
    /\ (forall n location',
           first_body (File.addDirectory this n location') up
           = Some (Some (JObj [("root", JStr (File.addDirectory_location this location'));
                               ("name", JStr n)])))
    /\ (forall manager n location',
           manager_server manager = server this ->
           first_body (FileManager.addDirectory manager n location') up
           = Some (Some (JObj [("root", JStr (FileManager.addDirectory_location location'));
                               ("name", JStr n)])))
    /\ (forall deleteSelf,
           first_body (File.decompress this deleteSelf) up
           = Some (Some (JObj [("root", JStr (root this));
                               ("file", JStr (name this))])))
    /\ (forall toLocation newName,
           first_body (File.duplicate this toLocation newName) up
           = Some (Some (JObj
                [("location",
                  JStr (trimTrailingSeparator toLocation ++ "/"
                        ++ (if (String.length (default EmptyString newName) =? 0)%nat
                            then name this
                            else default EmptyString newName)))]))).
Proof.
  intros this up Hv. unfold first_body.
  repeat split; intros.
  - unfold File.rename. rewrite first_request; [reflexivity | assumption |].
    intros response. append_only_tac.
  - unfold File.delete. rewrite first_request; [reflexivity | assumption |].
    intros response. append_only_tac.
  - unfold File.compress. rewrite first_request; [reflexivity | assumption |].
    intros response. append_only_tac.
  - unfold File.addDirectory, File.mkdir_and_relist.
    rewrite first_request; [reflexivity | assumption |].
    intros response. append_only_tac.
  - unfold FileManager.addDirectory, File.mkdir_and_relist.
    rewrite first_request; [reflexivity | congruence |].
    intros response. append_only_tac.
  - unfold File.decompress. cbv zeta.
    rewrite first_request; [reflexivity | assumption |].
    intros response. unfold File.delete. append_only_tac.
  - unfold File.duplicate. cbv zeta.
    rewrite first_request; [| assumption | intros response; append_only_tac].
    cbn [option_map data File.duplicate_request]. do 4 f_equal.
    unfold trimTrailingSeparator. rewrite slice_0_m1.
    destruct (String.length (default EmptyString newName)); reflexivity.
Qed.

Lemma request_bodies_witness :
  first_body (File.rename a_txt "b.txt") (scripted [])
  = Some (Some (JObj [("root", JStr "/");
                      ("files", JArr [JObj [("from", JStr "a.txt");
                                            ("to", JStr "b.txt")]])])).
Proof.
  destruct (request_bodies a_txt (scripted []) eq_refl) as (H & _).
  exact (H "b.txt").
Defined.

(** ** The entities the operations build *)

(** Takes a normal completion apart, step by step. *)
Ltac invert_async H :=
  lazymatch type of H with
  | bind _ _ _ _ = (Normal _, _) =>
      let a := fresh "a" in
      let lg := fresh "lg" in
      let Hs := fresh "Hstep" in
      apply bind_Normal_inv in H as (a & lg & Hs & H);
      invert_async Hs; invert_async H
  | ret _ _ _ = (_, _) => unfold ret in H; injection H as ? ?; subst
  | throw _ _ _ = (Normal _, _) => discriminate H
  | (match ?x with _ => _ end) _ _ = (_, _) => destruct x eqn:?; invert_async H
  | (if ?b then _ else _) _ _ = (_, _) => destruct b eqn:?; invert_async H
  | (let (_, _) := ?x in _) _ _ = (_, _) => destruct x eqn:?; invert_async H
  | _ => idtac
  end.


Lemma in_present_new d srv parent f :
  In f (present (Some (File.new d srv parent))) -> exists d', f = File.new d' srv parent.
Proof. intros [<- | []]. now exists d. Qed.







(** The constructor on a caller's parent: the entity of the entry "a.txt"
    under "/games/" lies at "/games/a.txt", with root "/games". *)
Example File_new_under_games :
  location (File.new (entry "a.txt" "-rw-r--" 12) sample_server (Some "/games/"))
  = "/games/a.txt"
  /\ root (File.new (entry "a.txt" "-rw-r--" 12) sample_server (Some "/games/"))
     = "/games".
Proof. split; reflexivity. Qed.

(** ** Composed paths *)

Section ComposedPaths.

Lemma join_rooted b p :
  well_formed_directory b -> endsWith b "/" = false -> relative p ->
  rooted (b ++ "/" ++ p).
Proof.
  intros Hb He [Hs Hd]. split.
  - rewrite startsWith_append.
    destruct Hb as [-> | [Hb _]]; [cbn [append]; now rewrite startsWith_cons |].
    destruct b; [discriminate | exact Hb].
  - rewrite has_double_separator_append, He.
    replace (has_double_separator b) with false
      by (destruct Hb as [-> | [_ Hb]]; [reflexivity | now rewrite Hb]).
    cbn [append has_double_separator orb andb].
    rewrite Hs, Hd. cbn. reflexivity.
Qed.

Lemma trimTrailingSeparator_well_formed p :
  well_formed_directory p ->
  well_formed_directory (trimTrailingSeparator p)
  /\ endsWith (trimTrailingSeparator p) "/" = false.
Proof.
  intros Hp. unfold trimTrailingSeparator.
  destruct (endsWith p "/") eqn:E; [| now split].
  pose proof (endsWith_drop_last p E) as Hq.
  set (q := drop_last p) in *.
  destruct Hp as [-> | [Hs Hd]]; [discriminate |].
  rewrite Hq in Hs, Hd.
  rewrite has_double_separator_append in Hd.
  apply orb_false_iff in Hd as [Hd Hj]. apply orb_false_iff in Hd as [Hd _].
  rewrite andb_true_r in Hj.
  split; [| exact Hj].
  destruct q as [| c t]; [now left | right].
  split; [| exact Hd]. now rewrite startsWith_append in Hs.
Qed.

Lemma strip_leading_relative path :
  has_double_separator path = false ->
  relative (if startsWith path "/" then slice_from path 1 else path).
Proof.
  intros Hd. destruct (startsWith path "/") eqn:E; [| now split].
  apply startsWith_sep in E as [t ->]. rewrite slice_from_1.
  cbn in Hd. apply orb_false_iff in Hd as [Hs Hd]. now split.
Qed.

Lemma name_relative n : has_separator n = false -> relative n.
Proof. intros H. destruct (no_separator_no_double n H) as (Hd & Hs & _). now split. Qed.

Lemma append_rooted x l :
  rooted x -> endsWith x "/" = false ->
  well_formed_directory l -> endsWith l "/" = false ->
  rooted (x ++ l) /\ endsWith (x ++ l) "/" = false.
Proof.
  intros [Hxs Hxd] Hxe Hl Hle.
  destruct Hl as [-> | [Hls Hld]]; [rewrite append_empty_r; repeat split; auto |].
  repeat split.
  - rewrite startsWith_append. destruct x; [discriminate | exact Hxs].
  - now rewrite has_double_separator_append, Hxd, Hld, Hxe.
  - rewrite endsWith_append. destruct l; [discriminate | exact Hle].
Qed.

Variables (d : FileData) (srv : Server) (parent : string).
Hypothesis parent_well_formed : well_formed_directory parent.
Hypothesis name_not_empty : attr_name (attributes d) <> EmptyString.
Hypothesis name_one_segment : has_separator (attr_name (attributes d)) = false.

(** The base [write] joins onto is the trimmed parent, also at the server
    root, where the stored root reads "/". *)
Lemma write_base :
  (if endsWith (root (File.new d srv (Some parent))) "/"
   then slice (root (File.new d srv (Some parent))) 0 (-1)
   else root (File.new d srv (Some parent)))
  = trimTrailingSeparator parent.
Proof.
  rewrite File_new_root. cbn [default].
  destruct (trimTrailingSeparator_well_formed parent parent_well_formed) as [_ He].
  destruct (trimTrailingSeparator parent) as [| c t']; [reflexivity |].
  cbn [String.length Nat.eqb]. now rewrite He.
Qed.

Lemma location_rooted :
  rooted (location (File.new d srv (Some parent)))
  /\ endsWith (location (File.new d srv (Some parent))) "/" = false.
Proof.
  rewrite File_new_location. cbn [default].
  destruct (trimTrailingSeparator_well_formed parent parent_well_formed) as [Hw He].
  split.
  - apply join_rooted; auto using name_relative.
  - rewrite endsWith_append. cbn [append].
    rewrite endsWith_cons.
    destruct (attr_name (attributes d)) eqn:En; [contradiction |].
    now destruct (no_separator_no_double _ name_one_segment) as (_ & _ & H).
Qed.

Lemma write_target_rooted path :
  match path with Some p => has_double_separator p = false | None => True end ->
  rooted (File.write_target (File.new d srv (Some parent)) path).
Proof.
  intros Hp. unfold File.write_target. rewrite write_base.
  destruct (trimTrailingSeparator_well_formed parent parent_well_formed) as [Hw He].
  destruct path as [p |]; apply join_rooted; auto.
  - now apply strip_leading_relative.
  - apply name_relative. exact name_one_segment.
Qed.

Lemma writeChild_target_rooted path :
  has_double_separator path = false ->
  rooted (File.writeChild_target (File.new d srv (Some parent)) path).
Proof.
  intros Hp. unfold File.writeChild_target.
  destruct location_rooted as [Hr He]. rewrite He.
  apply join_rooted; [now right | exact He | now apply strip_leading_relative].
Qed.

Lemma root_rooted :
  root (File.new d srv (Some parent)) <> "/" ->
  rooted (root (File.new d srv (Some parent)))
  /\ endsWith (root (File.new d srv (Some parent))) "/" = false.
Proof.
  rewrite File_new_root. cbn [default].
  destruct (trimTrailingSeparator_well_formed parent parent_well_formed) as [Hw He].
  destruct (trimTrailingSeparator parent) as [| c t'];
    [intros H; now contradiction H |].
  cbn [String.length Nat.eqb]. intros _.
  destruct Hw as [Hw | Hw]; [discriminate | now split].
Qed.

Lemma addDirectory_path_rooted n location' :
  relative n -> well_formed_directory (default "/" location') ->
  isDirectory (File.new d srv (Some parent)) = true
  \/ root (File.new d srv (Some parent)) <> "/" ->
  rooted (File.addDirectory_location (File.new d srv (Some parent)) location'
          ++ "/" ++ n).
Proof.
  intros Hn Hl Hcase. unfold File.addDirectory_location.
  rewrite slice_0_m1. fold (trimTrailingSeparator (default "/" location')).
  destruct (trimTrailingSeparator_well_formed _ Hl) as [Hw He].
  set (this := File.new d srv (Some parent)) in *.
  assert (Hx : exists x, rooted x /\ endsWith x "/" = false
                         /\ (if isDirectory this
                             then location this ++ trimTrailingSeparator (default "/" location')
                             else root this ++ trimTrailingSeparator (default "/" location'))
                            = x ++ trimTrailingSeparator (default "/" location')).
  { destruct (isDirectory this) eqn:Ed.
    - exists (location this). destruct location_rooted. auto.
    - destruct Hcase as [Hc | Hc]; [discriminate |].
      exists (root this). destruct (root_rooted Hc). auto. }
  destruct Hx as (x & Hxr & Hxe & ->).
  destruct (append_rooted x _ Hxr Hxe Hw He) as [Hr Hre].
  apply join_rooted; [now right | exact Hre | exact Hn].
Qed.

End ComposedPaths.

Lemma manager_addDirectory_path_rooted n location' :
  relative n -> well_formed_directory location' -> location' <> "/" ->
  rooted (FileManager.addDirectory_location (Some location') ++ "/" ++ n).
Proof.
  intros Hn Hl Hne. unfold FileManager.addDirectory_location. cbn [default].
  rewrite slice_0_m1. fold (trimTrailingSeparator location').
  destruct (trimTrailingSeparator_well_formed _ Hl) as [Hw He].
  destruct (Z.of_nat (String.length location') >? 1) eqn:Elen.
  - now apply join_rooted.
  - destruct location' as [| c [| c' s]].
    + now apply join_rooted.
    + destruct Hl as [Hl | [Hs _]]; [discriminate |].
      rewrite startsWith_cons in Hs. apply Ascii.eqb_eq in Hs. now subst.
    + cbn [String.length] in Elen. rewrite Z.gtb_ltb in Elen.
      apply Z.ltb_ge in Elen. lia.
Qed.

Lemma writeFile_target_relative path :
  has_double_separator path = false -> relative (FileManager.writeFile_target path).
Proof. apply strip_leading_relative. Qed.

(** C4, as stated, fails: [FileManager.writeFile] joins nothing in front of
    the path it stripped, so its path does not begin with "/"; and both
    [addDirectory] write "//" when the directory they join onto is "/". *)
Lemma composed_path_counterexample :
  startsWith (FileManager.writeFile_target "/a.txt") "/" = false
  /\ first_url (FileManager.writeFile (FileManager.new [] sample_server) "hello" "/a.txt")
               (scripted [])
     = Some "https://panel.example/api/client/servers/1a2b3c/files/write?file=a.txt"
  /\ has_double_separator (FileManager.addDirectory_location None ++ "/" ++ "plugins")
     = true
  /\ first_url (FileManager.addDirectory (FileManager.new [] sample_server) "plugins" None)
               (scripted [])
     = Some (server_url sample_server "/files/create-folder?file=//plugins")
  /\ has_double_separator (File.addDirectory_location a_txt None ++ "/" ++ "plugins")
     = true
  /\ first_url (File.addDirectory a_txt "plugins" None) (scripted [])
     = Some (server_url sample_server "/files/create-folder?file=//plugins").
Proof. repeat split. Qed.

(** C4, amended.  For an entity built over a well-formed parent (empty, or
    absolute without "//") from an entry whose name is one non-empty
    segment: the paths [write] and [writeChild] compose begin with "/" and
    hold no "//", for every child path without "//"; so does the path
    [File.addDirectory] composes on a directory, or on a file whose root is
    not "/", and the path [FileManager.addDirectory] composes for a location
    other than "/".  [FileManager.writeFile] joins no root: its path is the
    caller's less one leading "/", holds no "//" and does not begin with
    "/". *)
Theorem composed_paths_rooted :
  forall d srv parent,
    well_formed_directory parent ->
    attr_name (attributes d) <> EmptyString ->
    has_separator (attr_name (attributes d)) = false ->
    let this := File.new d srv (Some parent) in
    rooted (File.write_target this None)
    /\ (forall path,
           has_double_separator path = false ->
           rooted (File.write_target this (Some path))
           /\ rooted (File.writeChild_target this path)
           /\ relative (FileManager.writeFile_target path))
    /\ (forall n location',
           relative n -> well_formed_directory (default "/" location') ->
           isDirectory this = true \/ root this <> "/" ->
           rooted (File.addDirectory_location this location' ++ "/" ++ n))
    /\ (forall n location',
           relative n -> well_formed_directory location' -> location' <> "/" ->
           rooted (FileManager.addDirectory_location (Some location') ++ "/" ++ n)).
Proof.
  intros d srv parent Hp Hne Hseg this. subst this.
  split; [| split; [| split]].
  - now apply write_target_rooted.
  - intros path Hd. repeat split.
    + apply (write_target_rooted d srv parent Hp Hseg (Some path) Hd).
    + apply (write_target_rooted d srv parent Hp Hseg (Some path) Hd).
    + now apply writeChild_target_rooted.
    + now apply writeChild_target_rooted.
    + now apply writeFile_target_relative.
    + now apply writeFile_target_relative.
  - intros n location' Hn Hl Hcase. now apply addDirectory_path_rooted.
  - intros n location' Hn Hl Hneq. now apply manager_addDirectory_path_rooted.
Qed.

Lemma composed_paths_rooted_witness :
  rooted (File.write_target
            (File.new (entry "a.txt" "-rw-r--" 12) sample_server (Some "/games/")) None).
Proof.
  assert (Hp : well_formed_directory "/games/") by (right; split; reflexivity).
  assert (Hn : attr_name (attributes (entry "a.txt" "-rw-r--" 12)) <> EmptyString)
    by discriminate.
  destruct (composed_paths_rooted (entry "a.txt" "-rw-r--" 12) sample_server
              "/games/" Hp Hn eq_refl) as [H _].
  exact H.
Defined.

(** * Further properties of the code *)

(** ** Request.ts *)

(** X1.  [APIRequest] and [makeRequest] hand exactly one request to Axios,
    whatever comes back: nothing is retried and nothing is skipped. *)
Theorem APIRequest_sends_exactly_one_request :
  forall options sup (up : Upstream),
    requests (APIRequest options sup) up = [options]
    /\ requests (makeRequest options) up = [options].
Proof.
  intros options sup up. split.
  - unfold requests. now rewrite APIRequest_log.
  - unfold requests, makeRequest, bind, Axios_request. cbn.
    destruct (up [] options) as [r | err]; [reflexivity |].
    destruct (error_response err) as [r |].
    + destruct (status r =? 403); [reflexivity |].
      destruct (truthy (data_errors (response_data r))); reflexivity.
    + destruct (error_code err) as [c |]; [| reflexivity].
      destruct (String.eqb_spec c "ECONNREFUSED") as [-> | H1]; [reflexivity |].
      destruct (String.eqb_spec c "ENOTFOUND") as [-> | H2]; [reflexivity |].
      repeat match goal with
             | |- context [match ?x with _ => _ end] =>
                 match type of x with
                 | string => destruct x
                 | ascii => destruct x
                 | bool => destruct x
                 end
             end; reflexivity || congruence.
Qed.

Lemma error_code_other (c : string) (error : AxiosError) :
  c <> "ECONNREFUSED" -> c <> "ENOTFOUND" ->
  match c with
  | "ECONNREFUSED" =>
      @throw (option AxiosResponse * JSValue)
        (Error "Unable to connect to host, connection refused")
  | "ENOTFOUND" => throw (Error "Unable to connect to host, host not found")
  | _ => throw (AxiosFault error)
  end = throw (AxiosFault error).
Proof.
  intros H1 H2.
  repeat match goal with
         | |- context [match ?x with _ => _ end] =>
             match type of x with
             | string => destruct x
             | ascii => destruct x
             | bool => destruct x
             end
         end; reflexivity || congruence.
Qed.

(** X2.  A request that got no response fails at once: "connection
    refused" and "host not found" are reported under fixed messages, any
    other fault is rethrown as it was caught.  The suppressed statuses play
    no part. *)
Theorem APIRequest_without_response :
  forall options sup (up : Upstream) log error,
    up log options = Rejected error ->
    error_response error = None ->
    (error_code error = Some "ECONNREFUSED" ->
     fst (APIRequest options sup up log)
     = Throws (Error "Unable to connect to host, connection refused"))
    /\ (error_code error = Some "ENOTFOUND" ->
        fst (APIRequest options sup up log)
        = Throws (Error "Unable to connect to host, host not found"))
    /\ (error_code error <> Some "ECONNREFUSED" ->
        error_code error <> Some "ENOTFOUND" ->
        fst (APIRequest options sup up log) = Throws (AxiosFault error)).
Proof.
  intros options sup up log error Hup Hresp.
  unfold APIRequest, makeRequest, bind, Axios_request. rewrite Hup. cbn.
  rewrite Hresp.
  repeat split.
  - intros ->. reflexivity.
  - intros ->. reflexivity.
  - intros H1 H2. destruct (error_code error) as [c |]; [| reflexivity].
    rewrite error_code_other; [reflexivity | congruence | congruence].
Qed.

Lemma APIRequest_without_response_witness :
  fst (APIRequest (File.list_request sample_server "/") [204] (scripted []) [])
  = Throws (Error "Unable to connect to host, connection refused").
Proof.
  apply (APIRequest_without_response (File.list_request sample_server "/") [204]
           (scripted []) []
           {| error_response := None; error_code := Some "ECONNREFUSED" |});
    reflexivity.
Defined.

Lemma APIRequest_rejected_response_cases options sup (up : Upstream) log error r :
  up log options = Rejected error ->
  error_response error = Some r ->
  (status r = 403 ->
   fst (APIRequest options sup up log)
   = Throws (Error "Invalid API key provided, request failed"))
  /\ (status r <> 403 -> truthy (data_errors (response_data r)) = false ->
      fst (APIRequest options sup up log) = Throws (AxiosFault error)).
Proof.
  intros Hup Hresp.
  unfold APIRequest, makeRequest, bind, Axios_request. rewrite Hup. cbn.
  rewrite Hresp. split.
  - intros H. apply Z.eqb_eq in H. now rewrite H.
  - intros H Ht. apply Z.eqb_neq in H. now rewrite H, Ht.
Qed.

(** X3.  A response Axios rejected is never returned, suppressed or not: a
    403 is reported as an invalid key whatever its body holds, and a
    response whose body carries no truthy [errors] (no body, text, a
    listing) is rethrown as it was caught. *)
Theorem APIRequest_rejected_response :
  forall options sup (up : Upstream) log error r,
    up log options = Rejected error ->
    error_response error = Some r ->
    (status r = 403 ->
     fst (APIRequest options sup up log)
     = Throws (Error "Invalid API key provided, request failed"))
    /\ (status r <> 403 -> truthy (data_errors (response_data r)) = false ->
        fst (APIRequest options sup up log) = Throws (AxiosFault error))
    /\ fst (APIRequest options sup up log) <> Normal (Some r).
Proof.
  intros options sup up log error r Hup Hresp.
  unfold APIRequest, makeRequest, bind, Axios_request. rewrite Hup. cbn.
  rewrite Hresp.
  destruct (status r =? 403) eqn:E.
  - cbn. repeat split; try discriminate.
    intros H _. apply Z.eqb_eq in E. contradiction.
  - destruct (truthy (data_errors (response_data r))) eqn:T; cbn.
    + repeat split; try discriminate.
      * intros H. apply Z.eqb_eq in H. congruence.
      * destruct (iterate (data_errors (response_data r))) as [es |]; cbn;
          [| discriminate].
        destruct (throw_first_error es) as [[resp |] | e] eqn:Ht; try discriminate.
        exfalso. clear - Ht. induction es as [| e es IH]; [discriminate |].
        cbn in Ht.
        destruct (prop e "code"), (prop e "status"), (prop e "source"),
          (prop e "detail"); try discriminate.
        destruct (error_message _ _ _ _); [discriminate | auto].
    + repeat split; try discriminate.
      intros H. apply Z.eqb_eq in H. congruence.
Qed.

Lemma APIRequest_rejected_response_witness :
  fst (APIRequest (File.list_request sample_server "/") [403]
         (rejecting 403 (JArr [])) [])
  = Throws (Error "Invalid API key provided, request failed").
Proof.
  apply (APIRequest_rejected_response (File.list_request sample_server "/") [403]
           (rejecting 403 (JArr [])) []
           {| error_response :=
                Some {| status := 403; statusText := EmptyString;
                        response_data := PJson (JObj [("errors", JArr [])]) |};
              error_code := None |}
           {| status := 403; statusText := EmptyString;
              response_data := PJson (JObj [("errors", JArr [])]) |});
    reflexivity.
Defined.

Lemma throw_first_error_verdict e rest :
  throw_first_error (e :: rest) =
    match verdict e with
    | Some (Some msg) => Throws (PterodactylAPIError msg)
    | Some None => throw_first_error rest
    | None => Throws (TypeError "Cannot read properties of undefined")
    end.
Proof.
  unfold verdict. cbn [throw_first_error].
  destruct (prop e "code"), (prop e "status"), (prop e "source"),
    (prop e "detail"); reflexivity.
Qed.

Lemma throw_first_error_skips skipped l :
  Forall (fun x => verdict x = Some None) skipped ->
  throw_first_error (skipped ++ l) = throw_first_error l.
Proof.
  induction 1 as [| x xs Hx _ IH]; [reflexivity |].
  cbn [app]. now rewrite throw_first_error_verdict, Hx.
Qed.

(** What [APIRequest] does with a rejected response that carries an error
    list. *)
Lemma APIRequest_error_list options sup (up : Upstream) log error r :
  up log options = Rejected error ->
  error_response error = Some r ->
  status r <> 403 ->
  truthy (data_errors (response_data r)) = true ->
  fst (APIRequest options sup up log) =
    match iterate (data_errors (response_data r)) with
    | Some es => throw_first_error es
    | None => Throws (TypeError "error is not iterable")
    end.
Proof.
  intros Hup Hresp Hst Ht.
  unfold APIRequest, makeRequest, bind, Axios_request. rewrite Hup. cbn.
  rewrite Hresp. apply Z.eqb_neq in Hst. rewrite Hst, Ht. cbn.
  destruct (iterate (data_errors (response_data r))); reflexivity.
Qed.

(** X4.  The element that decides is the first one the loop does not skip:
    elements that carry neither shape are passed over, the first element
    that carries one is thrown under its message, and the elements after it
    are never read. *)
Theorem APIRequest_first_decisive_element :
  forall options sup (up : Upstream) log error r skipped e rest msg,
    up log options = Rejected error ->
    error_response error = Some r ->
    status r <> 403 ->
    data_errors (response_data r) = JArr (skipped ++ e :: rest) ->
    Forall (fun x => verdict x = Some None) skipped ->
    verdict e = Some (Some msg) ->
    fst (APIRequest options sup up log) = Throws (PterodactylAPIError msg).
Proof.
  intros options sup up log error r skipped e rest msg Hup Hresp Hst Hd Hsk He.
  rewrite (APIRequest_error_list _ _ _ _ _ _ Hup Hresp Hst) by now rewrite Hd.
  rewrite Hd. cbn [iterate].
  now rewrite throw_first_error_skips, throw_first_error_verdict, He.
Qed.

Lemma APIRequest_first_decisive_element_witness :
  fst (APIRequest (File.list_request sample_server "/") []
         (rejecting 422
            (JArr [JObj [("code", JStr "E0")];
                   JObj [("code", JStr "E1"); ("source", JObj [("field", JStr "name")]);
                         ("detail", JStr "too long")];
                   JNull])) [])
  = Throws (PterodactylAPIError "too long").
Proof.
  apply (APIRequest_first_decisive_element
           (File.list_request sample_server "/") []
           (rejecting 422
              (JArr [JObj [("code", JStr "E0")];
                     JObj [("code", JStr "E1");
                           ("source", JObj [("field", JStr "name")]);
                           ("detail", JStr "too long")];
                     JNull])) []
           {| error_response :=
                Some {| status := 422; statusText := EmptyString;
                        response_data :=
                          PJson (JObj [("errors",
                            JArr [JObj [("code", JStr "E0")];
                                  JObj [("code", JStr "E1");
                                        ("source", JObj [("field", JStr "name")]);
                                        ("detail", JStr "too long")];
                                  JNull])]) |};
              error_code := None |}
           {| status := 422; statusText := EmptyString;
              response_data :=
                PJson (JObj [("errors",
                  JArr [JObj [("code", JStr "E0")];
                        JObj [("code", JStr "E1");
                              ("source", JObj [("field", JStr "name")]);
                              ("detail", JStr "too long")];
                        JNull])]) |}
           [JObj [("code", JStr "E0")]]
           (JObj [("code", JStr "E1"); ("source", JObj [("field", JStr "name")]);
                  ("detail", JStr "too long")])
           [JNull] "too long");
    try reflexivity.
  - discriminate.
  - repeat constructor.
Defined.

Lemma verdict_of_character c : verdict (JStr c) = Some None.
Proof. reflexivity. Qed.

Lemma chars_skipped s : Forall (fun x => verdict x = Some None) (chars s).
Proof. induction s as [| c t IH]; constructor; [reflexivity | exact IH]. Qed.

(** X5.  An [errors] member of another kind: an object, a number or [true]
    cannot be iterated and raises a TypeError; an element that is [null]
    raises a TypeError when the loop reads it; a non-empty string is
    iterated character by character and, like a list whose elements are
    all skipped (the empty list among them), ends the call with
    [undefined]. *)
Theorem APIRequest_odd_error_member :
  forall options sup (up : Upstream) log error r,
    up log options = Rejected error ->
    error_response error = Some r ->
    status r <> 403 ->
    truthy (data_errors (response_data r)) = true ->
    (iterate (data_errors (response_data r)) = None ->
     fst (APIRequest options sup up log) = Throws (TypeError "error is not iterable"))
    /\ (forall skipped rest,
           data_errors (response_data r) = JArr (skipped ++ JNull :: rest) ->
           Forall (fun x => verdict x = Some None) skipped ->
           fst (APIRequest options sup up log)
           = Throws (TypeError "Cannot read properties of undefined"))
    /\ (forall es,
           data_errors (response_data r) = JArr es ->
           Forall (fun x => verdict x = Some None) es ->
           fst (APIRequest options sup up log) = Normal None)
    /\ (forall s,
           data_errors (response_data r) = JStr s ->
           fst (APIRequest options sup up log) = Normal None).
Proof.
  intros options sup up log error r Hup Hresp Hst Ht.
  rewrite (APIRequest_error_list _ _ _ _ _ _ Hup Hresp Hst Ht).
  repeat split.
  - intros ->. reflexivity.
  - intros skipped rest -> Hsk. cbn [iterate].
    now rewrite throw_first_error_skips, throw_first_error_verdict.
  - intros es -> Hsk. cbn [iterate].
    rewrite <- (app_nil_r es). now rewrite throw_first_error_skips.
  - intros s ->. cbn [iterate].
    rewrite <- (app_nil_r (chars s)).
    rewrite throw_first_error_skips; [reflexivity | apply chars_skipped].
Qed.

Lemma APIRequest_odd_error_member_witness :
  fst (APIRequest (File.list_request sample_server "/") []
         (rejecting 500 (JObj [("code", JStr "E1")])) [])
  = Throws (TypeError "error is not iterable").
Proof.
  apply (APIRequest_odd_error_member (File.list_request sample_server "/") []
           (rejecting 500 (JObj [("code", JStr "E1")])) []
           {| error_response :=
                Some {| status := 500; statusText := EmptyString;
                        response_data :=
                          PJson (JObj [("errors", JObj [("code", JStr "E1")])]) |};
              error_code := None |}
           {| status := 500; statusText := EmptyString;
              response_data :=
                PJson (JObj [("errors", JObj [("code", JStr "E1")])]) |});
    try reflexivity.
  discriminate.
Defined.

(** ** File.ts: the constructor *)

Lemma mode_fields_of_prefix m :
  charAt m 0 = charAt (String.substring 0 7 m) 0
  /\ substr m 1 3 = substr (String.substring 0 7 m) 1 3
  /\ substr m 4 3 = substr (String.substring 0 7 m) 4 3.
Proof.
  unfold charAt, substr.
  destruct m as [| c0 [| c1 [| c2 [| c3 [| c4 [| c5 [| c6 m]]]]]]];
    cbn; repeat split; try reflexivity; destruct m; reflexivity.
Qed.

(** X6.  Decoding of a mode of any length: a flag is true exactly when the
    character at its position exists and is the expected letter, so the
    positions a short mode lacks decode to false; and the characters after
    the seventh are ignored. *)
Theorem File_new_mode_of_any_length :
  forall d srv parent,
    let m := attr_mode (attributes d) in
    let f := File.new d srv parent in
    (isDirectory f = true <-> String.get 0 m = Some "d"%char)
    /\ (read (ownerFileAccess f) = true <-> String.get 1 m = Some "r"%char)
    /\ (write (ownerFileAccess f) = true <-> String.get 2 m = Some "w"%char)
    /\ (execute (ownerFileAccess f) = true <-> String.get 3 m = Some "x"%char)
    /\ (read (userFileAccess f) = true <-> String.get 4 m = Some "r"%char)
    /\ (write (userFileAccess f) = true <-> String.get 5 m = Some "w"%char)
    /\ (execute (userFileAccess f) = true <-> String.get 6 m = Some "x"%char)
    /\ (forall d' srv' parent',
           String.substring 0 7 (attr_mode (attributes d')) = String.substring 0 7 m ->
           isDirectory (File.new d' srv' parent') = isDirectory f
           /\ ownerFileAccess (File.new d' srv' parent') = ownerFileAccess f
           /\ userFileAccess (File.new d' srv' parent') = userFileAccess f).
Proof.
  intros d srv parent. cbv zeta.
  assert (Hprefix :
    forall d' srv' parent',
      String.substring 0 7 (attr_mode (attributes d'))
      = String.substring 0 7 (attr_mode (attributes d)) ->
      isDirectory (File.new d' srv' parent') = isDirectory (File.new d srv parent)
      /\ ownerFileAccess (File.new d' srv' parent')
         = ownerFileAccess (File.new d srv parent)
      /\ userFileAccess (File.new d' srv' parent')
         = userFileAccess (File.new d srv parent)).
  { intros d' srv' parent' H. unfold File.new.
    cbn [isDirectory ownerFileAccess userFileAccess].
    destruct (mode_fields_of_prefix (attr_mode (attributes d))) as (-> & -> & ->).
    destruct (mode_fields_of_prefix (attr_mode (attributes d'))) as (-> & -> & ->).
    rewrite H. repeat split. }
  assert (Hflag : forall i c,
             (charAt (attr_mode (attributes d)) i =? String c EmptyString)%string = true
             <-> String.get i (attr_mode (attributes d)) = Some c).
  { intros i c. unfold charAt.
    destruct (String.get i (attr_mode (attributes d))) as [x |].
    - rewrite one_char_eqb. split; congruence.
    - cbn. split; discriminate. }
  assert (Hat : forall n i, (i < 3)%nat ->
             charAt (substr (attr_mode (attributes d)) n 3) i
             = charAt (attr_mode (attributes d)) (i + n)).
  { intros n i Hi. unfold charAt, substr.
    now rewrite (String.substring_correct1 _ n 3 i Hi). }
  refine (conj _ (conj _ (conj _ (conj _ (conj _ (conj _ (conj _ Hprefix)))))));
    unfold File.new;
    cbn [isDirectory ownerFileAccess userFileAccess read write execute];
    rewrite ?Hat by lia; cbn [Nat.add]; apply Hflag.
Qed.

(** A mode of four characters: the user triple is missing and decodes to
    no access at all. *)
Example File_new_short_mode :
  userFileAccess (File.new (entry "a.txt" "-rwx" 1) sample_server None)
  = {| read := false; write := false; execute := false |}.
Proof. reflexivity. Qed.

(** ** Splitting a path *)

Lemma split_not_empty sep s : split sep s <> [].
Proof.
  destruct s as [| c t]; cbn; [discriminate |].
  destruct (Ascii.eqb c sep); [discriminate |].
  destruct (split sep t); discriminate.
Qed.

Lemma split_cons_other sep c t :
  Ascii.eqb c sep = false ->
  exists h r, split sep t = h :: r /\ split sep (String c t) = String c h :: r.
Proof.
  intros H. cbn [split]. rewrite H.
  destruct (split sep t) as [| h r] eqn:E; [now apply split_not_empty in E |].
  now exists h, r.
Qed.

Lemma concat_cons sep x l :
  l <> [] -> String.concat sep (x :: l) = x ++ sep ++ String.concat sep l.
Proof. destruct l; [contradiction | reflexivity]. Qed.

(** Joining what was split gives the string back. *)
Lemma join_split s : join "/" (split "/"%char s) = s.
Proof.
  unfold join. induction s as [| c t IH]; [reflexivity |].
  destruct (Ascii.eqb c "/") eqn:E.
  - cbn [split]. rewrite E. apply Ascii.eqb_eq in E. subst c.
    rewrite concat_cons by apply split_not_empty. now rewrite IH.
  - destruct (split_cons_other "/" c t E) as (h & r & Ht & ->).
    rewrite Ht in IH. destruct r as [| y r']; cbn in *; now subst.
Qed.

Lemma split_no_separator n : has_separator n = false -> split "/"%char n = [n].
Proof.
  induction n as [| c t IH]; [reflexivity |].
  cbn [has_separator]. intros H. apply orb_false_iff in H as [Hc Ht].
  cbn [split]. rewrite Hc, (IH Ht). reflexivity.
Qed.

Lemma split_append b s :
  split "/"%char (b ++ "/" ++ s) = (split "/"%char b ++ split "/"%char s)%list.
Proof.
  induction b as [| c t IH]; [reflexivity |].
  cbn [append] in *. destruct (Ascii.eqb c "/") eqn:E.
  - cbn [split]. rewrite E. cbn [app]. now rewrite IH.
  - destruct (split_cons_other "/" c t E) as (h & r & Ht & ->).
    cbn [split]. rewrite E, IH, Ht. reflexivity.
Qed.

Lemma split_path_join b n :
  has_separator n = false -> split_path (b ++ "/" ++ n) = (b, n).
Proof.
  intros Hn. unfold split_path.
  rewrite split_append, (split_no_separator n Hn).
  rewrite removelast_last, last_last. now rewrite join_split.
Qed.

Lemma has_separator_split s :
  has_separator s = true -> exists b n, s = b ++ "/" ++ n /\ has_separator n = false.
Proof.
  induction s as [| c t IH]; [discriminate |].
  cbn [has_separator]. intros H.
  destruct (has_separator t) eqn:Et.
  - destruct (IH eq_refl) as (b & n & -> & Hn).
    now exists (String c b), n.
  - rewrite orb_false_r in H. apply Ascii.eqb_eq in H. subst c.
    now exists EmptyString, t.
Qed.

(** X7.  Splitting a path into parent and name inverts the composition
    [parent + "/" + name] for every name that is one segment; a path
    without a separator has the empty parent; and a path with one is its
    two parts joined by "/": nothing is lost. *)
Theorem split_path_inverts_composition :
  (forall b n, has_separator n = false -> split_path (b ++ "/" ++ n) = (b, n))
  /\ (forall path, has_separator path = false -> split_path path = (EmptyString, path))
  /\ (forall path, has_separator path = true ->
        fst (split_path path) ++ "/" ++ snd (split_path path) = path
        /\ has_separator (snd (split_path path)) = false).
Proof.
  split; [exact split_path_join | split].
  - intros path H. unfold split_path. now rewrite (split_no_separator path H).
  - intros path H. destruct (has_separator_split path H) as (b & n & -> & Hn).
    now rewrite (split_path_join b n Hn).
Qed.

Lemma split_path_inverts_composition_witness :
  split_path ("/games/minecraft" ++ "/" ++ "server.jar")
  = ("/games/minecraft", "server.jar").
Proof.
  destruct split_path_inverts_composition as (H & _).
  apply H. reflexivity.
Defined.

Lemma split_path_one_segment path :
  has_separator path = false -> split_path path = (EmptyString, path).
Proof. intros H. unfold split_path. now rewrite (split_no_separator path H). Qed.

Lemma split_path_recompose path :
  has_separator path = true ->
  fst (split_path path) ++ "/" ++ snd (split_path path) = path
  /\ has_separator (snd (split_path path)) = false.
Proof.
  intros H. destruct (has_separator_split path H) as (b & n & -> & Hn).
  now rewrite (split_path_join b n Hn).
Qed.

(** ** File.ts: preconditions *)

Lemma require_verified_false {A} c (k : unit -> Async A) up log :
  verified c = false ->
  bind (require_verified c) k up log
  = (Throws (PterodactylAPIError (CLIENT_UNVERIFIED_ERROR c)), log).
Proof. intros H. unfold bind, require_verified. now rewrite H. Qed.

(** Closes a [refused_locally] goal for an operation that starts with the
    check of the client, given [Hv : verified _ = false]. *)
Ltac refuse_unverified Hv :=
  unfold refused_locally; intros;
  unfold outcome, requests, require_verified, bind;
  rewrite ?Hv; cbn; split; reflexivity.

(** X8.  On a client that has not logged in, every operation of a file
    entity that passes its directory guard throws the client's "unverified"
    error and sends nothing. *)
Theorem File_operations_need_a_verified_client :
  forall this,
    verified (client (server this)) = false ->
    let e := PterodactylAPIError (CLIENT_UNVERIFIED_ERROR (client (server this))) in
    (forall n, refused_locally (File.rename this n) e)
    /\ refused_locally (File.sync this) e
    /\ (forall toLocation newName,
           refused_locally (File.duplicate this toLocation newName) e)
    /\ (forall n location', refused_locally (File.addDirectory this n location') e)
    /\ refused_locally (File.compress this) e
    /\ (forall deleteSelf, refused_locally (File.decompress this deleteSelf) e)
    /\ refused_locally (File.delete this) e
    /\ (isDirectory this = true ->
        refused_locally (File.getChildren this) e
        /\ (forall n, refused_locally (File.getChild this n) e)
        /\ (forall contents path,
               refused_locally (File.writeChild this contents path) e))
    /\ (isDirectory this = false ->
        refused_locally (File.getContents this) e
        /\ refused_locally (File.download this) e
        /\ (forall contents path, refused_locally (File.write this contents path) e)).
Proof.
  intros this Hv e. subst e.
  repeat match goal with |- _ /\ _ => split end; intros.
  - unfold File.rename. refuse_unverified Hv.
  - unfold File.sync. refuse_unverified Hv.
  - unfold File.duplicate. cbv zeta. refuse_unverified Hv.
  - unfold File.addDirectory, File.mkdir_and_relist. refuse_unverified Hv.
  - unfold File.compress. refuse_unverified Hv.
  - unfold File.decompress. cbv zeta. refuse_unverified Hv.
  - unfold File.delete. refuse_unverified Hv.
  - match goal with H : isDirectory this = true |- _ => rename H into Hd end.
    repeat split; intros;
      unfold File.getChild, File.getChildren, File.writeChild, File.write_and_relist;
      rewrite Hd; cbn [negb]; refuse_unverified Hv.
  - match goal with H : isDirectory this = false |- _ => rename H into Hd end.
    repeat split; intros;
      unfold File.getContents, File.download, File.write, File.write_and_relist;
      rewrite Hd; refuse_unverified Hv.
Qed.

Lemma File_operations_need_a_verified_client_witness :
  outcome (File.delete (File.new (entry "a.txt" "-rw-r--" 12) guest_server None))
          (scripted [Resolved no_content])
  = Throws (PterodactylAPIError "Client is unverified, login to proceed")
  /\ requests (File.delete (File.new (entry "a.txt" "-rw-r--" 12) guest_server None))
              (scripted [Resolved no_content])
     = [].
Proof.
  destruct (File_operations_need_a_verified_client
              (File.new (entry "a.txt" "-rw-r--" 12) guest_server None) eq_refl)
    as (_ & _ & _ & _ & _ & _ & H & _).
  exact (H (scripted [Resolved no_content])).
Defined.

(** X9.  The directory guards come before everything else: on a file,
    [getChildren], [getChild] and [writeChild], and on a directory,
    [getContents], [download] and [write], throw their own error and send
    nothing, whether or not the client has logged in. *)
Theorem directory_guards_come_first :
  forall this,
    (isDirectory this = false ->
     refused_locally (File.getChildren this)
       (PterodactylAPIError
          "This file is not a directory, you cannot get it's children!")
     /\ (forall n,
            refused_locally (File.getChild this n)
              (PterodactylAPIError
                 "This file is not a directory, you cannot get it's children!"))
     /\ (forall contents path,
            refused_locally (File.writeChild this contents path)
              (PterodactylAPIError
                 "This is a file, not a directory. You cannot add or edit a child from it.")))
    /\ (isDirectory this = true ->
        refused_locally (File.getContents this)
          (PterodactylAPIError
             "A directory has no file contents, did you mean getChildren?")
        /\ refused_locally (File.download this)
             (PterodactylAPIError
                "You cannot download a directory directly. Try compressing it first")
        /\ (forall contents path,
               refused_locally (File.write this contents path)
                 (PterodactylAPIError
                    "A directory has no file contents, did you mean writeChild?"))).
Proof.
  intros this. split; intros Hd; repeat split; intros;
    unfold outcome, requests, File.getChild, File.getChildren, File.writeChild,
      File.getContents, File.download, File.write, bind;
    rewrite Hd; reflexivity.
Qed.

Lemma directory_guards_come_first_witness :
  outcome (File.write (File.new (entry "plugins" "drwxr-x" 4096) guest_server None)
             "hello" None)
          (scripted [Resolved no_content])
  = Throws (PterodactylAPIError
              "A directory has no file contents, did you mean writeChild?")
  /\ requests (File.write (File.new (entry "plugins" "drwxr-x" 4096) guest_server None)
                 "hello" None)
              (scripted [Resolved no_content])
     = [].
Proof.
  destruct (directory_guards_come_first
              (File.new (entry "plugins" "drwxr-x" 4096) guest_server None))
    as (_ & H).
  destruct (H eq_refl) as (_ & _ & Hw).
  exact (Hw "hello" None (scripted [Resolved no_content])).
Defined.

(** ** File.ts: the requests of an operation *)

Lemma single_request {A} options sup (k : option AxiosResponse -> Async A) up log :
  silent k ->
  snd (bind (APIRequest options sup) k up log) = (log ++ [options])%list.
Proof.
  intros Hk. unfold bind.
  pose proof (APIRequest_log options sup up log) as Hlog.
  destruct (APIRequest options sup up log) as [[r | e] log1]; cbn in Hlog; subst log1.
  - apply Hk.
  - reflexivity.
Qed.

Lemma silent_relist {A} n (found : FileData -> Async A) (missing : Async A) :
  (forall file up log, snd (found file up log) = log) ->
  (forall up log, snd (missing up log) = log) ->
  silent (fun response =>
            files <- listing_of response ;;
            match entry_named n files with
            | Some file => found file
            | None => missing
            end).
Proof.
  intros Hf Hm response up log. unfold bind, listing_of.
  destruct response as [r |]; [| reflexivity].
  destruct (listing (response_data r)) as [l |]; [| reflexivity].
  cbn. destruct (entry_named n l); [apply Hf | apply Hm].
Qed.

Lemma requests_verified {A} c (m : Async A) up :
  verified c = true -> requests (require_verified c ;;; m) up = requests m up.
Proof.
  intros Hv. unfold requests.
  now rewrite (bind_Normal _ _ _ _ _ _ (require_verified_true _ up [] Hv)).
Qed.

Lemma outcome_verified {A} c (m : Async A) up :
  verified c = true -> outcome (require_verified c ;;; m) up = outcome m up.
Proof.
  intros Hv. unfold outcome.
  now rewrite (bind_Normal _ _ _ _ _ _ (require_verified_true _ up [] Hv)).
Qed.

(** The requests of a mutation followed by a re-listing. *)
Lemma mutate_then_relist_requests {A} mutation sup srv dir
  (k : option AxiosResponse -> Async A) up :
  silent k ->
  requests (APIRequest mutation sup ;;;
            bind (APIRequest (File.list_request srv dir) []) k) up
  = match fst (APIRequest mutation sup up []) with
    | Normal _ => [mutation; File.list_request srv dir]
    | Throws _ => [mutation]
    end.
Proof.
  intros Hk. unfold requests, bind at 1.
  pose proof (APIRequest_log mutation sup up []) as Hlog.
  destruct (APIRequest mutation sup up []) as [[r | e] log1]; cbn in Hlog; subst log1.
  - cbn [fst]. now rewrite single_request.
  - reflexivity.
Qed.

Lemma mutation_throws {A} mutation sup (k : option AxiosResponse -> Async A) up e :
  fst (APIRequest mutation sup up []) = Throws e ->
  outcome (bind (APIRequest mutation sup) k) up = Throws e.
Proof.
  intros H. unfold outcome, bind.
  destruct (APIRequest mutation sup up []) as [[r | e'] log1]; cbn in H;
    [discriminate | now injection H as ->].
Qed.

(** X10.  A mutation is followed by one re-listing of the directory, and
    only when it went through: [rename] sends the rename and then the
    listing of the node's root; when the rename throws, nothing else is
    sent and the error is the caller's.  The same holds for the write and
    the creation of a directory, whose re-listing reads the parent of the
    path written and the directory created in. *)
Theorem relisting_follows_the_mutation :
  forall this (up : Upstream),
    verified (client (server this)) = true ->
    (forall n,
        requests (File.rename this n) up
        = match fst (APIRequest (File.rename_request this n) [204] up []) with
          | Normal _ => [File.rename_request this n;
                         File.list_request (server this) (root this)]
          | Throws _ => [File.rename_request this n]
          end
        /\ forall e, fst (APIRequest (File.rename_request this n) [204] up []) = Throws e ->
                     outcome (File.rename this n) up = Throws e)
    /\ (forall contents path,
           requests (File.write_and_relist (server this) contents path) up
           = match fst (APIRequest (File.write_request (server this) path contents)
                          [204] up []) with
             | Normal _ => [File.write_request (server this) path contents;
                            File.list_request (server this) (fst (split_path path))]
             | Throws _ => [File.write_request (server this) path contents]
             end)
    /\ (forall location' n,
           requests (File.mkdir_and_relist (server this) location' n) up
           = match fst (APIRequest (File.mkdir_request (server this) location' n)
                          [204] up []) with
             | Normal _ => [File.mkdir_request (server this) location' n;
                            File.list_request (server this) location']
             | Throws _ => [File.mkdir_request (server this) location' n]
             end).
Proof.
  intros this up Hv. split; [| split].
  - intros n. split.
    + unfold File.rename. rewrite (requests_verified _ _ _ Hv).
      apply mutate_then_relist_requests. apply silent_relist; reflexivity.
    + intros e He. unfold File.rename. rewrite (outcome_verified _ _ _ Hv).
      now apply mutation_throws.
  - intros contents path.
    unfold File.write_and_relist. rewrite (requests_verified _ _ _ Hv).
    destruct (split_path path) as [root' name'] eqn:E. cbn [fst].
    apply mutate_then_relist_requests. apply silent_relist; reflexivity.
  - intros location' n.
    unfold File.mkdir_and_relist. rewrite (requests_verified _ _ _ Hv).
    apply mutate_then_relist_requests. apply silent_relist; reflexivity.
Qed.

Lemma relisting_follows_the_mutation_witness :
  requests (File.rename a_txt "b.txt") (rejecting 500 (JArr [JNull]))
  = [File.rename_request a_txt "b.txt"].
Proof.
  destruct (relisting_follows_the_mutation a_txt (rejecting 500 (JArr [JNull])) eq_refl)
    as (H & _).
  destruct (H "b.txt") as (Hreq & _). exact Hreq.
Defined.

(** X11.  When the decompress request throws, [decompress] throws the same
    error and the archive is not deleted: the decompress request is the
    only one sent. *)
Theorem decompress_failure_keeps_the_archive :
  forall this deleteSelf (up : Upstream) e,
    verified (client (server this)) = true ->
    fst (APIRequest (File.decompress_request this) [204] up []) = Throws e ->
    outcome (File.decompress this deleteSelf) up = Throws e
    /\ requests (File.decompress this deleteSelf) up = [File.decompress_request this].
Proof.
  intros this deleteSelf up e Hv Hreq.
  unfold outcome, requests, File.decompress. cbv zeta.
  rewrite (bind_Normal _ _ _ _ _ _ (require_verified_true _ up [] Hv)).
  pose proof (APIRequest_log (File.decompress_request this) [204] up []) as Hlog.
  unfold bind at 1 3.
  destruct (APIRequest (File.decompress_request this) [204] up []) as [c log1].
  cbn in Hreq, Hlog. subst c log1. split; reflexivity.
Qed.

Lemma decompress_failure_keeps_the_archive_witness :
  requests (File.decompress a_txt (Some true)) (scripted [])
  = [File.decompress_request a_txt].
Proof.
  apply (decompress_failure_keeps_the_archive a_txt (Some true) (scripted [])
           (Error "Unable to connect to host, connection refused"));
    reflexivity.
Defined.

(** X12.  The operations that do not re-list send exactly one request on a
    verified client, whatever the upstream answers: [delete], [duplicate],
    [compress], [sync], and, past their directory guard, [getChildren],
    [getChild], [getContents] and [download]. *)
Theorem one_request_operations :
  forall this (up : Upstream),
    verified (client (server this)) = true ->
    requests (File.delete this) up = [File.delete_request this]
    /\ (forall toLocation newName,
           List.length (requests (File.duplicate this toLocation newName) up) = 1%nat)
    /\ requests (File.compress this) up = [File.compress_request this]
    /\ requests (File.sync this) up = [File.list_request (server this) (root this)]
    /\ (isDirectory this = true ->
        requests (File.getChildren this) up
        = [File.list_request (server this) (location this)]
        /\ forall n, requests (File.getChild this n) up
                     = [File.list_request (server this) (location this)])
    /\ (isDirectory this = false ->
        requests (File.getContents this) up
        = [File.contents_request (server this) (location this)]
        /\ requests (File.download this) up = [File.download_request this]).
Proof.
  intros this up Hv.
  assert (Hstart : forall A (m : Async A),
             requests (require_verified (client (server this)) ;;; m) up
             = snd (m up [])).
  { intros A m. unfold requests.
    now rewrite (bind_Normal _ _ _ _ _ _ (require_verified_true _ up [] Hv)). }
  assert (Hchildren :
            isDirectory this = true ->
            requests (File.getChildren this) up
            = [File.list_request (server this) (location this)]).
  { intros Hd. unfold File.getChildren. rewrite Hd. cbn [negb].
    rewrite Hstart. apply single_request.
    intros response up' log. unfold bind, listing_of.
    destruct response as [r |]; [| reflexivity].
    destruct (listing (response_data r)); reflexivity. }
  split; [| split; [| split; [| split; [| split]]]].
  - unfold File.delete. rewrite Hstart. apply single_request.
    intros r up' log. reflexivity.
  - intros toLocation newName. unfold File.duplicate. cbv zeta. rewrite Hstart.
    rewrite single_request; [reflexivity | intros r up' log; reflexivity].
  - unfold File.compress. rewrite Hstart. apply single_request.
    intros r up' log. destruct r as [r |]; [| reflexivity].
    destruct (File.of_body _ _ _); reflexivity.
  - unfold File.sync. rewrite Hstart. apply single_request.
    apply silent_relist; reflexivity.
  - intros Hd. split; [now apply Hchildren |].
    intros n. specialize (Hchildren Hd).
    unfold File.getChild, requests, bind. unfold requests in Hchildren.
    destruct (File.getChildren this up []) as [[files | e] log1];
      cbn in Hchildren; subst log1; reflexivity.
  - intros Hd. split.
    + unfold File.getContents. rewrite Hd, Hstart. apply single_request.
      intros r up' log. destruct r; reflexivity.
    + unfold File.download. rewrite Hd, Hstart. apply single_request.
      intros r up' log. destruct r as [r |]; [| reflexivity].
      destruct (attribute_of (response_data r) "url"); reflexivity.
Qed.

Lemma one_request_operations_witness :
  requests (File.delete a_txt) (scripted []) = [File.delete_request a_txt].
Proof.
  destruct (one_request_operations a_txt (scripted []) eq_refl) as (H & _).
  exact H.
Defined.

(** ** File.ts: the entity an operation hands back *)

(** An entity built with a stored root as its parent has that root again,
    when the root is "/" or a non-empty path without a trailing "/". *)
Lemma File_new_at_stored_root file srv r :
  r = "/" \/ (r <> EmptyString /\ endsWith r "/" = false) ->
  root (File.new file srv (Some r)) = r
  /\ location (File.new file srv (Some r))
     = (if (r =? "/")%string then EmptyString else r) ++ "/" ++ attr_name (attributes file).
Proof.
  intros Hr. rewrite File_new_root, File_new_location. cbn [default].
  unfold trimTrailingSeparator.
  destruct Hr as [-> | [Hne He]]; [split; reflexivity |].
  rewrite He. destruct r as [| c t]; [contradiction |].
  cbn [String.length Nat.eqb]. split; [reflexivity |].
  destruct (String.eqb_spec (String c t) "/") as [E | _]; [| reflexivity].
  rewrite E in He. discriminate.
Qed.

(** Turns a normal outcome into the run it comes from. *)
Ltac outcome_run H E :=
  unfold outcome in H;
  match type of H with
  | fst ?run = _ =>
      let c := fresh "c" in
      let lg := fresh "lg" in
      destruct run as [c lg] eqn:E; cbn [fst] in H; subst c
  end.

(** X13.  [rename] and [sync] hand back an entity of the same directory:
    when the stored root is "/" or has no trailing "/", the entity returned
    has the stored root as its root, the new name (for [sync], the old one)
    as its name, and its location is that root, "/" and the name, with the
    root "/" counting as empty. *)
Theorem rename_and_sync_stay_in_the_directory :
  forall this (up : Upstream),
    root this = "/" \/ (root this <> EmptyString /\ endsWith (root this) "/" = false) ->
    (forall n f,
        outcome (File.rename this n) up = Normal f ->
        name f = n /\ root f = root this /\ server f = server this
        /\ location f
           = (if (root this =? "/")%string then EmptyString else root this) ++ "/" ++ n)
    /\ (forall f,
           outcome (File.sync this) up = Normal f ->
           name f = name this /\ root f = root this /\ server f = server this
           /\ location f
              = (if (root this =? "/")%string then EmptyString else root this)
                ++ "/" ++ name this).
Proof.
  intros this up Hr. split.
  - intros n f H. outcome_run H E. unfold File.rename in E. invert_async E.
    match goal with
    | Hfound : entry_named n _ = Some ?file |- _ =>
        apply find_some in Hfound as [_ Hname];
        apply String.eqb_eq in Hname;
        destruct (File_new_at_stored_root file (server this) (root this) Hr)
          as [Hroot Hloc]
    end.
    rewrite Hroot, Hloc, Hname. repeat split. exact Hname.
  - intros f H. outcome_run H E. unfold File.sync in E. invert_async E.
    match goal with
    | Hfound : entry_named (name this) _ = Some ?file |- _ =>
        apply find_some in Hfound as [_ Hname];
        apply String.eqb_eq in Hname;
        destruct (File_new_at_stored_root file (server this) (root this) Hr)
          as [Hroot Hloc]
    end.
    rewrite Hroot, Hloc, Hname. repeat split. exact Hname.
Qed.

Lemma rename_and_sync_stay_in_the_directory_witness :
  location (File.new (entry "b.txt" "-rw-r--" 12) sample_server (Some "/")) = "/b.txt".
Proof.
  destruct (rename_and_sync_stay_in_the_directory a_txt
              (scripted [Resolved no_content;
                         Resolved (ok_with (PList [entry "b.txt" "-rw-r--" 12]))])
              (or_introl eq_refl)) as (H & _).
  destruct (H "b.txt" (File.new (entry "b.txt" "-rw-r--" 12) sample_server (Some "/"))
              eq_refl) as (_ & _ & _ & Hloc).
  exact Hloc.
Defined.

Lemma rooted_has_separator p : rooted p -> has_separator p = true.
Proof.
  intros [Hs _]. apply startsWith_sep in Hs as [t ->]. reflexivity.
Qed.

(** The entity [write_and_relist] builds for a rooted path lies at that
    path. *)
Lemma write_and_relist_location srv contents path up f :
  rooted path ->
  outcome (File.write_and_relist srv contents path) up = Normal (Some f) ->
  location f = path /\ name f = snd (split_path path).
Proof.
  intros Hp H. outcome_run H E. unfold File.write_and_relist in E.
  destruct (split_path_recompose path (rooted_has_separator path Hp)) as [Hjoin _].
  destruct (split_path path) as [root' name'] eqn:Es. cbn [fst snd] in *.
  assert (Hend : endsWith root' "/" = false).
  { destruct Hp as [_ Hd]. rewrite <- Hjoin in Hd.
    rewrite has_double_separator_append in Hd.
    apply orb_false_iff in Hd as [_ Hj].
    cbn [append] in Hj. rewrite startsWith_cons in Hj. cbn in Hj.
    now rewrite andb_true_r in Hj. }
  rewrite <- Hjoin. clear Hjoin Hp Es.
  invert_async E; try congruence.
  match goal with
  | Hfound : entry_named name' _ = Some ?file |- _ =>
      apply find_some in Hfound as [_ Hname]; apply String.eqb_eq in Hname
  end.
  split; [| exact Hname].
  rewrite File_new_location. cbn [default]. rewrite Hname.
  unfold trimTrailingSeparator. now rewrite Hend.
Qed.

(** X14.  The entity [write] hands back lies at the path written.  For a
    node built over a well-formed parent from a name of one segment, and a
    child path without "//": the location of the entity returned is the
    path the write went to; with no path given it is the node's own
    location, under the node's own name. *)
Theorem write_returns_the_entity_written :
  forall d srv parent contents path (up : Upstream) f,
    well_formed_directory parent ->
    attr_name (attributes d) <> EmptyString ->
    has_separator (attr_name (attributes d)) = false ->
    match path with Some p => has_double_separator p = false | None => True end ->
    outcome (File.write (File.new d srv (Some parent)) contents path) up
    = Normal (Some f) ->
    location f = File.write_target (File.new d srv (Some parent)) path
    /\ (path = None ->
        location f = location (File.new d srv (Some parent))
        /\ name f = name (File.new d srv (Some parent))).
Proof.
  intros d srv parent contents path up f Hp Hne Hseg Hpath H.
  pose proof (write_target_rooted d srv parent Hp Hseg path Hpath) as Hrooted.
  unfold File.write in H.
  destruct (isDirectory (File.new d srv (Some parent))); [discriminate |].
  destruct (write_and_relist_location _ _ _ _ _ Hrooted H) as [Hloc Hname].
  split; [exact Hloc |].
  intros ->. rewrite Hloc, Hname.
  unfold File.write_target. rewrite (write_base d srv parent Hp).
  rewrite (split_path_join _ _ Hseg), File_new_location. split; reflexivity.
Qed.

Lemma write_returns_the_entity_written_witness :
  location (File.new (entry "b.txt" "-rw-r--" 5) sample_server (Some "/games"))
  = "/games/b.txt".
Proof.
  assert (Hp : well_formed_directory "/games/") by (right; split; reflexivity).
  assert (Hn : attr_name (attributes (entry "a.txt" "-rw-r--" 12)) <> EmptyString)
    by discriminate.
  destruct (write_returns_the_entity_written
              (entry "a.txt" "-rw-r--" 12) sample_server "/games/" "hello"
              (Some "/b.txt")
              (scripted [Resolved no_content;
                         Resolved (ok_with (PList [entry "b.txt" "-rw-r--" 5]))])
              (File.new (entry "b.txt" "-rw-r--" 5) sample_server (Some "/games"))
              Hp Hn eq_refl eq_refl eq_refl) as (H & _).
  exact H.
Defined.

(** X15.  The children [getChildren] returns are parented at the
    directory's own location: for a directory built over a well-formed
    parent from a name of one segment, each child has the directory's
    location as its root and that location, "/" and its name as its
    location. *)
Theorem getChildren_parents_at_the_location :
  forall d srv parent (up : Upstream) children,
    well_formed_directory parent ->
    attr_name (attributes d) <> EmptyString ->
    has_separator (attr_name (attributes d)) = false ->
    outcome (File.getChildren (File.new d srv (Some parent))) up = Normal children ->
    forall c,
      In c children ->
      root c = location (File.new d srv (Some parent))
      /\ location c = location (File.new d srv (Some parent)) ++ "/" ++ name c.
Proof.
  intros d srv parent up children Hp Hne Hseg H c Hin.
  destruct (location_rooted d srv parent Hp Hne Hseg) as [Hr He].
  outcome_run H E. unfold File.getChildren in E. invert_async E.
  apply in_map_iff in Hin as (file & <- & _).
  assert (Hstored : location (File.new d srv (Some parent)) = "/"
                    \/ (location (File.new d srv (Some parent)) <> EmptyString
                        /\ endsWith (location (File.new d srv (Some parent))) "/" = false)).
  { right. split; [| exact He].
    destruct Hr as [Hs _]. intros Heq. rewrite Heq in Hs. discriminate. }
  destruct (File_new_at_stored_root file
              (server (File.new d srv (Some parent))) _ Hstored) as [Hroot Hloc].
  split; [exact Hroot |]. refine (eq_trans Hloc _).
  destruct (String.eqb_spec (location (File.new d srv (Some parent))) "/") as [Heq | _];
    [| reflexivity].
  rewrite Heq in He. discriminate.
Qed.

Lemma getChildren_parents_at_the_location_witness :
  root (File.new (entry "server.jar" "-rw-r--" 300) sample_server (Some "/games/plugins"))
  = "/games/plugins".
Proof.
  assert (Hp : well_formed_directory "/games") by (right; split; reflexivity).
  assert (Hn : attr_name (attributes (entry "plugins" "drwxr-x" 4096)) <> EmptyString)
    by discriminate.
  destruct (getChildren_parents_at_the_location
              (entry "plugins" "drwxr-x" 4096) sample_server "/games"
              (scripted [Resolved (ok_with (PList [entry "server.jar" "-rw-r--" 300]))])
              [File.new (entry "server.jar" "-rw-r--" 300) sample_server
                 (Some "/games/plugins")]
              Hp Hn eq_refl eq_refl
              (File.new (entry "server.jar" "-rw-r--" 300) sample_server
                 (Some "/games/plugins"))
              (or_introl eq_refl)) as (H & _).
  exact H.
Defined.

Lemma find_map {X Y} (p : Y -> bool) (g : X -> Y) l :
  find p (map g l) = option_map g (find (fun x => p (g x)) l).
Proof.
  induction l as [| x l IH]; [reflexivity |].
  cbn. destruct (p (g x)); [reflexivity | exact IH].
Qed.

Lemma find_File_by_name n srv parent l :
  find (fun file : File => (name file =? n)%string)
       (map (fun d => File.new d srv parent) l)
  = option_map (fun d => File.new d srv parent) (entry_named n l).
Proof. unfold entry_named. now rewrite find_map. Qed.

(** X16.  [getChild] returns the child built from the first entry of the
    listing that bears the name, and [undefined], without an error, when
    the listing has none. *)
Theorem getChild_first_entry_or_undefined :
  forall this n (up : Upstream) r l,
    isDirectory this = true ->
    verified (client (server this)) = true ->
    up [] (File.list_request (server this) (location this)) = Resolved r ->
    status r = 200 ->
    response_data r = PList l ->
    outcome (File.getChild this n) up
    = Normal (option_map (fun d => File.new d (server this) (Some (location this)))
                         (entry_named n l))
    /\ ((forall d, In d l -> attr_name (attributes d) <> n) ->
        outcome (File.getChild this n) up = Normal None).
Proof.
  intros this n up r l Hd Hv Hup Hst Hl.
  assert (Hrun : outcome (File.getChild this n) up
                 = Normal (option_map
                             (fun d => File.new d (server this) (Some (location this)))
                             (entry_named n l))).
  { unfold outcome, File.getChild, File.getChildren. rewrite Hd. cbn [negb].
    unfold bind at 1.
    rewrite (bind_Normal _ _ _ _ _ _ (require_verified_true _ up [] Hv)).
    unfold bind at 1.
    rewrite (APIRequest_resolved _ _ _ _ _ Hup), Hst. cbn.
    unfold listing_of, bind, ret. rewrite Hl. cbn [listing fst].
    now rewrite find_File_by_name. }
  split; [exact Hrun |].
  intros Habsent. rewrite Hrun.
  apply entry_named_absent in Habsent. now rewrite Habsent.
Qed.

Lemma getChild_first_entry_or_undefined_witness :
  outcome (File.getChild (File.new (entry "plugins" "drwxr-x" 4096) sample_server None)
             "missing.jar")
          (scripted [Resolved (ok_with (PList [entry "server.jar" "-rw-r--" 300]))])
  = Normal None.
Proof.
  destruct (getChild_first_entry_or_undefined
              (File.new (entry "plugins" "drwxr-x" 4096) sample_server None)
              "missing.jar"
              (scripted [Resolved (ok_with (PList [entry "server.jar" "-rw-r--" 300]))])
              (ok_with (PList [entry "server.jar" "-rw-r--" 300]))
              [entry "server.jar" "-rw-r--" 300]
              eq_refl eq_refl eq_refl eq_refl eq_refl) as (_ & H).
  apply H. intros d [<- | []]. discriminate.
Defined.

(** X17.  [compress] takes nothing but a 200 for a success: for a
    completed response, an entity is returned only when the status is 200,
    and it is the one the constructor makes of the body, in the node's own
    directory; any other status Axios resolves, the 204 of the other
    mutations included, is reported as unexpected.  On a 200 a body of the
    declared type gives the entity of that entry; a body whose
    [attributes.mode] is a string gives an object whatever else it holds;
    and a body the constructor cannot read raises a TypeError. *)
Theorem compress_needs_a_200_and_a_file_object :
  forall this (up : Upstream) code r,
    verified (client (server this)) = true ->
    up [] (File.compress_request this) = settle code r ->
    (forall e, outcome (File.compress this) up = Normal e ->
               status r = 200
               /\ File.of_body (response_data r) (server this) (Some (root this))
                  = Some e)
    /\ (validateStatus (status r) = true -> status r <> 200 ->
        outcome (File.compress this) up
        = Throws (PterodactylAPIError
                    ("An unexpected error occurred (" ++ of_Z (status r)
                     ++ "): " ++ statusText r)))
    /\ (status r = 200 ->
        (forall file, response_data r = PFile file ->
           outcome (File.compress this) up
           = Normal (Declared (File.new file (server this) (Some (root this)))))
        /\ (forall v a m,
               response_data r = PJson v ->
               prop v "attributes" = Some a -> prop a "mode" = Some (JStr m) ->
               exists e, outcome (File.compress this) up = Normal e)
        /\ (File.of_body (response_data r) (server this) (Some (root this)) = None ->
            outcome (File.compress this) up
            = Throws (TypeError "Cannot read properties of undefined"))).
Proof.
  intros this up code r Hv Hup.
  unfold File.compress. rewrite (outcome_verified _ _ _ Hv).
  unfold outcome, bind.
  destruct (APIRequest (File.compress_request this) [] up []) as [c lg] eqn:E.
  assert (Hc : fst (APIRequest (File.compress_request this) [] up []) = c)
    by now rewrite E.
  assert (Hresolved : validateStatus (status r) = true ->
                      c = if status r =? 200 then Normal (Some r)
                          else Throws (PterodactylAPIError
                                         ("An unexpected error occurred ("
                                          ++ of_Z (status r) ++ "): " ++ statusText r))).
  { intros Hvalid. unfold settle in Hup. rewrite Hvalid in Hup.
    rewrite (APIRequest_resolved _ [] _ _ _ Hup) in Hc. cbn [fst includes existsb] in Hc.
    now rewrite orb_false_r in Hc. }
  split; [| split].
  - intros e He. destruct c as [[r' |] | e']; cbn in He; try discriminate He.
    destruct (APIRequest_settled_returns _ _ _ _ _ _ _ Hup Hc) as (-> & _ & [H200 | []]).
    split; [exact H200 |].
    destruct (File.of_body (response_data r) (server this) (Some (root this)));
      cbn in He; [now injection He as -> | discriminate He].
  - intros Hvalid Hst. rewrite (Hresolved Hvalid).
    apply Z.eqb_neq in Hst. now rewrite Hst.
  - intros H200.
    assert (Hvalid : validateStatus (status r) = true) by now rewrite H200.
    rewrite (Hresolved Hvalid), H200. cbn [Z.eqb Pos.eqb].
    split; [| split].
    + intros file ->. reflexivity.
    + intros v a m -> Ha Hm. unfold File.of_body. rewrite Ha, Hm.
      destruct (declared_attributes a); eexists; reflexivity.
    + intros ->. reflexivity.
Qed.

Lemma compress_needs_a_200_and_a_file_object_witness :
  outcome (File.compress a_txt) (scripted [settle None no_content])
  = Throws (PterodactylAPIError "An unexpected error occurred (204): No Content").
Proof.
  destruct (compress_needs_a_200_and_a_file_object a_txt
              (scripted [settle None no_content]) None no_content eq_refl eq_refl)
    as (_ & H & _).
  apply H; [reflexivity | discriminate].
Defined.

(** A 200 whose body carries a mode and nothing else makes an object
    without a name, placed at the root. *)
Example compress_of_a_bare_mode :
  exists u,
    outcome (File.compress a_txt)
      (scripted [Resolved (ok_with (PJson (JObj [("attributes",
                                                  JObj [("mode", JStr "-rw-r--")])])))])
    = Normal (Undeclared u)
    /\ untyped_name u = JUndefined
    /\ untyped_location u = "/undefined"
    /\ untyped_root u = "/".
Proof. eexists. repeat split. Qed.

(** ** FileManager.ts and Server.ts *)

(** X18.  On a client that has not logged in, every operation of the file
    manager, and [getFileManager], [sendCommand] and the power signals of
    the server, throw the client's "unverified" error and send nothing. *)
Theorem manager_operations_need_a_verified_client :
  forall manager,
    verified (client (manager_server manager)) = false ->
    let e := PterodactylAPIError
               (CLIENT_UNVERIFIED_ERROR (client (manager_server manager))) in
    (forall path, refused_locally (FileManager.getFileContents manager path) e)
    /\ (forall path, refused_locally (FileManager.getFolderContents manager path) e)
    /\ (forall contents path,
           refused_locally (FileManager.writeFile manager contents path) e)
    /\ (forall n location',
           refused_locally (FileManager.addDirectory manager n location') e)
    /\ refused_locally (completion (FileManager.sync manager)) e
    /\ refused_locally (Server.getFileManager (manager_server manager)) e
    /\ (forall command,
           refused_locally (Server.sendCommand (manager_server manager) command) e)
    /\ (forall state,
           refused_locally (Server.sendPowerSignal (manager_server manager) state) e)
    /\ refused_locally (Server.start (manager_server manager)) e
    /\ refused_locally (Server.stop (manager_server manager)) e
    /\ refused_locally (Server.restart (manager_server manager)) e
    /\ refused_locally (Server.kill (manager_server manager)) e.
Proof.
  intros manager Hv e. subst e.
  repeat match goal with |- _ /\ _ => split end; intros;
    unfold FileManager.getFileContents, FileManager.getFolderContents,
      FileManager.writeFile, FileManager.addDirectory,
      completion, FileManager.sync,
      Server.getFileManager, Server.sendCommand, Server.start, Server.stop,
      Server.restart, Server.kill, Server.sendPowerSignal,
      File.write_and_relist, File.mkdir_and_relist;
    refuse_unverified Hv.
Qed.

Lemma manager_operations_need_a_verified_client_witness :
  outcome (Server.start guest_server) (scripted [Resolved no_content])
  = Throws (PterodactylAPIError "Client is unverified, login to proceed")
  /\ requests (Server.start guest_server) (scripted [Resolved no_content]) = [].
Proof.
  destruct (manager_operations_need_a_verified_client
              (FileManager.new [] guest_server) eq_refl)
    as (_ & _ & _ & _ & _ & _ & _ & _ & H & _).
  exact (H (scripted [Resolved no_content])).
Defined.

(** X19.  The manager's [getChild] returns the entity built from the first
    entry of the root listing that bears the name, parented at the server
    root, and [undefined] when there is none; the entities of a manager
    keep the order and the names of the listing. *)
Theorem manager_getChild_first_entry :
  forall l srv n,
    FileManager.getChild (FileManager.new l srv) n
    = option_map (fun d => File.new d srv None) (entry_named n l)
    /\ map name (contents (FileManager.new l srv))
       = map (fun d => attr_name (attributes d)) l
    /\ (forall f, FileManager.getChild (FileManager.new l srv) n = Some f ->
                  name f = n /\ root f = "/" /\ location f = "/" ++ n)
    /\ (FileManager.getChild (FileManager.new l srv) n = None
        <-> forall d, In d l -> attr_name (attributes d) <> n).
Proof.
  intros l srv n.
  assert (Hget : FileManager.getChild (FileManager.new l srv) n
                 = option_map (fun d => File.new d srv None) (entry_named n l)).
  { unfold FileManager.getChild, FileManager.new. cbn [contents].
    apply find_File_by_name. }
  split; [exact Hget | split; [| split]].
  - unfold FileManager.new. cbn [contents]. rewrite map_map. reflexivity.
  - intros f Hf. rewrite Hget in Hf.
    destruct (entry_named n l) as [d |] eqn:E; [| discriminate].
    injection Hf as <-. apply find_some in E as [_ Hn]. apply String.eqb_eq in Hn.
    cbn. rewrite Hn. repeat split.
  - rewrite Hget, <- entry_named_absent.
    destruct (entry_named n l); cbn; split; intros H; try discriminate H;
      reflexivity.
Qed.

(** What [write_and_relist] returns when it returns an entity. *)
Lemma write_and_relist_inv srv contents path up f :
  outcome (File.write_and_relist srv contents path) up = Normal (Some f) ->
  exists file,
    f = File.new file srv (Some (fst (split_path path)))
    /\ attr_name (attributes file) = snd (split_path path).
Proof.
  intros H. outcome_run H E. unfold File.write_and_relist in E.
  destruct (split_path path) as [root' name'] eqn:Es. cbn [fst snd].
  invert_async E; try congruence.
  match goal with
  | Hfound : entry_named name' _ = Some ?file |- _ =>
      apply find_some in Hfound as [_ Hname]; apply String.eqb_eq in Hname;
      exists file
  end.
  split; [congruence | exact Hname].
Qed.

(** X20.  The entity [FileManager.writeFile] hands back, for a path without
    "//": a path of one segment gives an entity at the server root, with
    root "/" and location "/" + name; a nested path gives an entity whose
    root is the directory part as the caller wrote it and whose location is
    the path less its leading "/": it does not begin with "/". *)
Theorem writeFile_entity_location :
  forall manager contents path (up : Upstream) f,
    has_double_separator path = false ->
    outcome (FileManager.writeFile manager contents path) up = Normal (Some f) ->
    (has_separator (FileManager.writeFile_target path) = false ->
     root f = "/" /\ name f = FileManager.writeFile_target path
     /\ location f = "/" ++ FileManager.writeFile_target path)
    /\ (has_separator (FileManager.writeFile_target path) = true ->
        root f = fst (split_path (FileManager.writeFile_target path))
        /\ location f = FileManager.writeFile_target path
        /\ startsWith (location f) "/" = false).
Proof.
  intros manager contents path up f Hd H.
  unfold FileManager.writeFile in H.
  destruct (write_and_relist_inv _ _ _ _ _ H) as (file & -> & Hname).
  destruct (writeFile_target_relative path Hd) as [Hs Hdd].
  set (target := FileManager.writeFile_target path) in *.
  split; intros Hsep.
  - rewrite (split_path_one_segment target Hsep) in *. cbn [fst snd] in *.
    cbn. rewrite Hname. repeat split.
  - destruct (split_path_recompose target Hsep) as [Hjoin _].
    set (root' := fst (split_path target)) in *.
    set (name' := snd (split_path target)) in *.
    assert (Hroot' : root' <> EmptyString /\ endsWith root' "/" = false).
    { split.
      - intros Hempty. rewrite Hempty in Hjoin. rewrite <- Hjoin in Hs.
        cbn [append] in Hs. rewrite startsWith_cons in Hs. discriminate.
      - rewrite <- Hjoin in Hdd. rewrite has_double_separator_append in Hdd.
        apply orb_false_iff in Hdd as [_ Hj].
        cbn [append] in Hj. rewrite startsWith_cons in Hj. cbn in Hj.
        now rewrite andb_true_r in Hj. }
    destruct (File_new_at_stored_root file (manager_server manager) root'
                (or_intror Hroot')) as [Hr Hl].
    assert (Hloc : location (File.new file (manager_server manager) (Some root'))
                   = target).
    { rewrite Hl, Hname, <- Hjoin.
      destruct (String.eqb_spec root' "/") as [E | _]; [| reflexivity].
      destruct Hroot' as [_ He]. rewrite E in He. discriminate. }
    rewrite Hloc. repeat split; assumption.
Qed.

Lemma writeFile_entity_location_witness :
  location (File.new (entry "b.txt" "-rw-r--" 5) sample_server (Some "games"))
  = "games/b.txt".
Proof.
  destruct (writeFile_entity_location (FileManager.new [] sample_server) "hello"
              "/games/b.txt"
              (scripted [Resolved no_content;
                         Resolved (ok_with (PList [entry "b.txt" "-rw-r--" 5]))])
              (File.new (entry "b.txt" "-rw-r--" 5) sample_server (Some "games"))
              eq_refl eq_refl) as (_ & H).
  destruct (H eq_refl) as (_ & Hloc & _). exact Hloc.
Defined.


(** A listing request answered 200 with a body that is no listing: the
    sync throws, and the manager has lost its contents. *)
Example sync_on_an_unreadable_body :
  let manager := FileManager.new [entry "a.txt" "-rw-r--" 12] sample_server in
  let up := scripted [Resolved (ok_with (PJson (JStr EmptyString)))] in
  outcome (completion (FileManager.sync manager)) up
  = Throws (TypeError "response.data.data is not iterable")
  /\ contents manager = [a_txt]
  /\ contents (object_after (FileManager.sync manager) up) = [].
Proof. cbv zeta. repeat split. Qed.

(** ** Client.ts *)

(** A response [APIRequest] returns came from Axios as a resolution and has
    status 200 or a suppressed status. *)
Lemma APIRequest_returns_accepted options sup up log r :
  fst (APIRequest options sup up log) = Normal (Some r) ->
  up log options = Resolved r /\ (status r = 200 \/ In (status r) sup).
Proof.
  unfold APIRequest, makeRequest, bind, Axios_request. cbn.
  destruct (up log options) as [r0 | err]; cbn.
  - destruct ((status r0 =? 200) || includes sup (status r0)) eqn:E; cbn;
      [| discriminate].
    intros H. injection H as ->. split; [reflexivity | now apply accepted_status].
  - destruct (error_response err) as [r0 |].
    + destruct (status r0 =? 403); [discriminate |].
      destruct (truthy (data_errors (response_data r0))); [| discriminate].
      cbn. destruct (iterate (data_errors (response_data r0))) as [es |];
        [| discriminate].
      cbn. intros H. now apply throw_first_error_no_response in H.
    + destruct (error_code err) as [c |]; [| discriminate].
      destruct (String.eqb_spec c "ECONNREFUSED") as [-> | H1]; [discriminate |].
      destruct (String.eqb_spec c "ENOTFOUND") as [-> | H2]; [discriminate |].
      rewrite (error_code_other c err H1 H2). discriminate.
Qed.

(** X22.  [login] never answers false: when it completes normally the
    answer is true and the client is verified.  On a client that is
    verified already it sends nothing and changes nothing; and a request
    that throws leaves the client as it was. *)
Theorem login_never_returns_false :
  forall this (up : Upstream),
    (forall b, method_outcome (Client.login this) up = Normal b ->
               b = true
               /\ verified (core (method_state (Client.login this) up)) = true
               /\ host (core (method_state (Client.login this) up)) = host (core this)
               /\ token (core (method_state (Client.login this) up)) = token (core this))
    /\ (verified (core this) = true ->
        method_outcome (Client.login this) up = Normal true
        /\ method_state (Client.login this) up = this
        /\ method_requests (Client.login this) up = [])
    /\ (forall e, fst (APIRequest (Client.account_request this) [] up []) = Throws e ->
                  verified (core this) = false ->
                  method_outcome (Client.login this) up = Throws e
                  /\ method_state (Client.login this) up = this).
Proof.
  intros this up. unfold method_outcome, method_state, method_requests, Client.login.
  split; [| split].
  - intros b. destruct (verified (core this)) eqn:Hv; cbn.
    + intros H. injection H as <-. repeat split. exact Hv.
    + destruct (APIRequest (Client.account_request this) [] up [])
        as [[[r |] | e] log'] eqn:E; cbn; try discriminate.
      assert (Hst : status r = 200).
      { assert (Hr : fst (APIRequest (Client.account_request this) [] up [])
                     = Normal (Some r)) by now rewrite E.
        apply APIRequest_returns_accepted in Hr as [_ [H | []]]. exact H. }
      rewrite Hst. cbn.
      destruct (Account_new (response_data r)); cbn; [| discriminate].
      intros H. injection H as <-. repeat split.
  - intros Hv. rewrite Hv. repeat split.
  - intros e He Hv. rewrite Hv.
    destruct (APIRequest (Client.account_request this) [] up []) as [c log'].
    cbn in He. subst c. split; reflexivity.
Qed.

(** X23.  A [login] whose answer is a 200 with a body that has no
    [attributes] throws a TypeError after the client was marked verified:
    the client stays verified, without an account, and the next [login]
    answers true without a request. *)
Theorem failed_login_leaves_the_client_verified :
  forall this (up up' : Upstream) r,
    verified (core this) = false ->
    up [] (Client.account_request this) = Resolved r ->
    status r = 200 ->
    Account_new (response_data r) = None ->
    method_outcome (Client.login this) up
    = Throws (TypeError "Cannot read properties of undefined")
    /\ verified (core (method_state (Client.login this) up)) = true
    /\ account (method_state (Client.login this) up) = account this
    /\ method_outcome (Client.login (method_state (Client.login this) up)) up'
       = Normal true
    /\ method_requests (Client.login (method_state (Client.login this) up)) up' = [].
Proof.
  intros this up up' r Hv Hup Hst Hacc.
  assert (Hrun : Client.login this up []
                 = ((Throws (TypeError "Cannot read properties of undefined"),
                     Client.set_verified this),
                    [Client.account_request this])).
  { unfold Client.login. rewrite Hv.
    rewrite (APIRequest_resolved _ _ _ _ _ Hup), Hst.
    change (200 =? 200) with true. cbn [orb app]. now rewrite Hst, Hacc. }
  unfold method_outcome, method_state, method_requests. rewrite Hrun. cbn [fst snd].
  repeat split.
Qed.

Lemma failed_login_leaves_the_client_verified_witness :
  verified (core (method_state
                    (Client.login (Client.new "https://panel.example/" "key" None))
                    (scripted [Resolved (ok_with (PList []))]))) = true.
Proof.
  destruct (failed_login_leaves_the_client_verified
              (Client.new "https://panel.example/" "key" None)
              (scripted [Resolved (ok_with (PList []))]) (scripted [])
              (ok_with (PList [])) eq_refl eq_refl eq_refl eq_refl)
    as (_ & H & _).
  exact H.
Defined.

(** X24.  The constructor trims one trailing "/" of the host, so a host
    written with and without it makes the same client; the client starts
    unverified, without an account, and an omitted or empty password is the
    empty password. *)
Theorem Client_new_trims_the_host :
  forall h apiKey p,
    endsWith h "/" = false ->
    Client.new (h ++ "/") apiKey p = Client.new h apiKey p
    /\ host (core (Client.new h apiKey p)) = h
    /\ token (core (Client.new h apiKey p)) = apiKey
    /\ verified (core (Client.new h apiKey p)) = false
    /\ account (Client.new h apiKey p) = None
    /\ password (Client.new h apiKey None) = EmptyString
    /\ password (Client.new h apiKey (Some EmptyString)) = EmptyString.
Proof.
  intros h apiKey p Hh. unfold Client.new.
  rewrite endsWith_append_sep, slice_0_m1, drop_last_append_sep, Hh.
  repeat split.
Qed.

Lemma Client_new_trims_the_host_witness :
  Client.new ("https://panel.example" ++ "/") "key" None
  = Client.new "https://panel.example" "key" None.
Proof.
  destruct (Client_new_trims_the_host "https://panel.example" "key" None eq_refl)
    as (H & _).
  exact H.
Defined.

(** X25.  [createAPIKey] refuses a description of fewer than four
    characters ([description.length], in UTF-16 code units) before anything
    else: the error is the same, and nothing is sent, whether or not the
    client has logged in.  A longer description on a client that has not
    logged in is refused as unverified, and on a client that has logged in
    it is sent in one request. *)
Theorem createAPIKey_checks_the_description_first :
  forall this description ips,
    ((length description < 4)%nat ->
     refused_locally (Client.createAPIKey this description ips)
       (PterodactylAPIError "API Key description must be of length 4 or greater"))
    /\ ((4 <= length description)%nat ->
        verified (core this) = false ->
        refused_locally (Client.createAPIKey this description ips)
          (PterodactylAPIError (CLIENT_UNVERIFIED_ERROR (core this))))
    /\ ((4 <= length description)%nat ->
        verified (core this) = true ->
        forall up, requests (Client.createAPIKey this description ips) up
                   = [Client.createAPIKey_request this description ips]).
Proof.
  intros this description ips. unfold Client.createAPIKey.
  split; [| split]; intros Hlen.
  - intros up.
    destruct (Z.ltb_spec (Z.of_nat (length description)) 4) as [_ | H]; [| lia].
    split; reflexivity.
  - intros Hv.
    destruct (Z.ltb_spec (Z.of_nat (length description)) 4) as [H | _]; [lia |].
    refuse_unverified Hv.
  - intros Hv up.
    destruct (Z.ltb_spec (Z.of_nat (length description)) 4) as [H | _]; [lia |].
    rewrite (requests_verified _ _ _ Hv). apply single_request.
    intros r up' log. destruct r as [r |]; [| reflexivity].
    destruct (meta_of (response_data r) "secret_token"); [| reflexivity].
    destruct (APIKey_new (response_data r) j); reflexivity.
Qed.

Lemma createAPIKey_checks_the_description_first_witness :
  outcome (Client.createAPIKey (Client.new "https://panel.example" "key" None)
             three_characters None)
          (scripted [])
  = Throws (PterodactylAPIError "API Key description must be of length 4 or greater")
  /\ requests
       (Client.createAPIKey (Client.new "https://panel.example" "key" None)
          three_characters None)
       (scripted [])
     = [].
Proof.
  destruct (createAPIKey_checks_the_description_first
              (Client.new "https://panel.example" "key" None) three_characters None)
    as (H & _).
  assert (Hlen : (length three_characters < 4)%nat) by (vm_compute; lia).
  exact (H Hlen (scripted [])).
Defined.

(** The length [createAPIKey] tests is not the number of bytes: a
    description of three characters is refused although its encoding has
    four bytes, on a client that has logged in too. *)
Example createAPIKey_three_characters :
  String.length three_characters = 4%nat
  /\ length three_characters = 3%nat
  /\ forall up,
       outcome (Client.createAPIKey
                  {| core := logged_in "https://panel.example" "key";
                     password := EmptyString; account := None |}
                  three_characters None) up
       = Throws (PterodactylAPIError
                   "API Key description must be of length 4 or greater").
Proof. repeat split. Qed.

Lemma reading_requests {A} this (m : Async A) up :
  method_requests (reading this m) up = requests m up
  /\ method_state (reading this m) up = this
  /\ method_outcome (reading this m) up = outcome m up.
Proof.
  unfold method_requests, method_state, method_outcome, reading, requests, outcome.
  destruct (m up []) as [c log']. repeat split.
Qed.

Lemma reading_one_request this options sup up :
  method_state (reading this (response <- APIRequest options sup ;; ret true)) up = this
  /\ method_requests (reading this (response <- APIRequest options sup ;; ret true)) up
     = [options].
Proof.
  destruct (reading_requests this (response <- APIRequest options sup ;; ret true) up)
    as (Hreq & Hst & _).
  split; [exact Hst |]. rewrite Hreq. unfold requests.
  apply single_request. intros r u l. reflexivity.
Qed.

(** What the three methods that take a password send and leave behind. *)
Lemma password_methods this pw up :
  verified (core this) = true ->
  (forall email',
      method_state (Client.setEmail this email' pw) up
      = snd (Client.remember_password this pw)
      /\ method_requests (Client.setEmail this email' pw) up
         = [Client.setEmail_request this email' (fst (Client.remember_password this pw))])
  /\ (method_state (Client.disable2FA this pw) up
      = snd (Client.remember_password this pw)
      /\ method_requests (Client.disable2FA this pw) up
         = [Client.disable2FA_request this (fst (Client.remember_password this pw))])
  /\ (forall newPassword,
         method_state (Client.setPassword this newPassword pw) up
         = snd (Client.remember_password this pw)
         /\ method_requests (Client.setPassword this newPassword pw) up
            = [Client.setPassword_request this newPassword
                 (fst (Client.remember_password this pw))]).
Proof.
  intros Hv. unfold Client.setEmail, Client.disable2FA, Client.setPassword.
  rewrite Hv. cbn [negb].
  destruct (Client.remember_password this pw) as [pass this'].
  cbn [fst snd]. repeat split; intros; apply reading_one_request.
Qed.

(** X26.  The first password a caller supplies is remembered, whatever
    becomes of the request it was supplied for: a later call that omits
    the password sends the remembered one, and a later call that supplies
    another sends that other one without replacing the remembered one. *)
Theorem first_password_is_remembered :
  forall this email' p (up up' : Upstream),
    verified (core this) = true ->
    password this = EmptyString ->
    p <> EmptyString ->
    password (method_state (Client.setEmail this email' (Some p)) up) = p
    /\ method_requests (Client.setEmail this email' (Some p)) up
       = [Client.setEmail_request this email' p]
    /\ method_requests
         (Client.disable2FA (method_state (Client.setEmail this email' (Some p)) up) None)
         up'
       = [Client.disable2FA_request this p]
    /\ (forall q newPassword,
           q <> EmptyString ->
           method_requests
             (Client.setPassword
                (method_state (Client.setEmail this email' (Some p)) up)
                newPassword (Some q)) up'
           = [Client.setPassword_request this newPassword q]
           /\ password
                (method_state
                   (Client.setPassword
                      (method_state (Client.setEmail this email' (Some p)) up)
                      newPassword (Some q)) up')
              = p).
Proof.
  intros this email' p up up' Hv Hpw Hp.
  assert (Hpb : (p =? EmptyString)%string = false) by now apply String.eqb_neq.
  destruct (password_methods this (Some p) up Hv) as (Hemail & _).
  destruct (Hemail email') as [Hstate Hreq].
  assert (Hremember : Client.remember_password this (Some p)
                      = (p, {| core := core this; password := p;
                               account := account this |})).
  { unfold Client.remember_password, or_else. now rewrite Hpw, Hpb. }
  rewrite Hremember in Hstate, Hreq. cbn [fst snd] in Hstate, Hreq.
  rewrite Hstate.
  split; [reflexivity | split; [exact Hreq | split]].
  - destruct (password_methods
                {| core := core this; password := p; account := account this |}
                None up' Hv) as (_ & [_ H2] & _).
    rewrite H2. unfold Client.remember_password, or_else. cbn [password fst].
    reflexivity.
  - intros q newPassword Hq.
    assert (Hqb : (q =? EmptyString)%string = false) by now apply String.eqb_neq.
    destruct (password_methods
                {| core := core this; password := p; account := account this |}
                (Some q) up' Hv) as (_ & _ & H3).
    destruct (H3 newPassword) as [Hs3 Hr3].
    rewrite Hs3, Hr3. unfold Client.remember_password, or_else.
    cbn [password fst snd]. rewrite Hqb, Hpb. split; reflexivity.
Qed.

Lemma first_password_is_remembered_witness :
  password (method_state
              (Client.setEmail
                 {| core := sample_client; password := EmptyString; account := None |}
                 "admin@example.org" (Some "hunter2"))
              (scripted []))
  = "hunter2".
Proof.
  assert (Hp : "hunter2" <> EmptyString) by discriminate.
  destruct (first_password_is_remembered
              {| core := sample_client; password := EmptyString; account := None |}
              "admin@example.org" "hunter2" (scripted []) (scripted [])
              eq_refl eq_refl Hp) as (H & _).
  exact H.
Defined.

(** X27.  What [APIRequest] can return.  A response it returns is the very
    response Axios resolved with, and its status is 200 or suppressed: a
    response Axios rejected, or one of another status, never comes back.
    And it returns [undefined] only after a rejection, other than a 403,
    whose body carries a truthy, iterable [errors]. *)
Theorem APIRequest_returns_only_accepted_responses :
  forall options sup (up : Upstream) log,
    (forall r, fst (APIRequest options sup up log) = Normal (Some r) ->
               up log options = Resolved r /\ (status r = 200 \/ In (status r) sup))
    /\ (fst (APIRequest options sup up log) = Normal None ->
        exists error r es,
          up log options = Rejected error
          /\ error_response error = Some r
          /\ status r <> 403
          /\ truthy (data_errors (response_data r)) = true
          /\ iterate (data_errors (response_data r)) = Some es
          /\ throw_first_error es = Normal None).
Proof.
  intros options sup up log. split.
  - intros r. apply APIRequest_returns_accepted.
  - destruct (up log options) as [r0 | err] eqn:Hup.
    + rewrite (APIRequest_resolved _ _ _ _ _ Hup). cbn [fst].
      destruct ((status r0 =? 200) || includes sup (status r0)); discriminate.
    + destruct (error_response err) as [r0 |] eqn:Hresp.
      * destruct (Z.eq_dec (status r0) 403) as [H403 | H403].
        { destruct (APIRequest_rejected_response_cases options sup up log err r0 Hup Hresp)
            as [H _]. rewrite (H H403). discriminate. }
        destruct (truthy (data_errors (response_data r0))) eqn:Ht.
        -- rewrite (APIRequest_error_list _ _ _ _ _ _ Hup Hresp H403 Ht).
           destruct (iterate (data_errors (response_data r0))) as [es |] eqn:Hit;
             [| discriminate].
           intros H. exists err, r0, es. repeat split; assumption.
        -- destruct (APIRequest_rejected_response_cases options sup up log err r0
                       Hup Hresp) as [_ H]. rewrite (H H403 Ht). discriminate.
      * unfold APIRequest, makeRequest, bind, Axios_request. rewrite Hup. cbn.
        rewrite Hresp.
        destruct (error_code err) as [c |]; [| discriminate].
        destruct (String.eqb_spec c "ECONNREFUSED") as [-> | H1]; [discriminate |].
        destruct (String.eqb_spec c "ENOTFOUND") as [-> | H2]; [discriminate |].
        rewrite (error_code_other c err H1 H2). discriminate.
Qed.
